(** * ics2000 light platform: command dispatch, admission guard and retry loop

    A shallow embedding of [custom_components/ics2000/light.py].  Python
    integers are [Z], [None]-able attributes are [option], the [**kwargs]
    dictionaries are [gmap string Z], thread names are strings built exactly
    as the f-string of [KlikAanKlikUitThread.__init__] builds them, and the
    methods that mutate [self] and start threads are written in
    state-passing style: they return the new entity together with the list
    of threads on which [.start()] was called, in program order. *)

From Stdlib Require Import ZArith Lia.
From Stdlib Require Import Floats Uint63.
From stdpp Require Import base tactics option list strings pretty gmap.

Local Open Scope Z_scope.

(** ** Python runtime pieces used by the module *)

Module Py.

(** Exceptions that can leave a call.  [ValueError] is what [time.sleep]
    raises on a negative duration; [HubError] stands for whatever a hub
    command raises. *)
Inductive exn : Type :=
| ValueError
| HubError.

Inductive outcome (A : Type) : Type :=
| Returned (a : A)
| Raised (e : exn).
Arguments Returned {A} a.
Arguments Raised {A} e.

(** State-and-exception monad: a computation runs on a state and either
    returns or raises, the state changes made so far being kept. *)
Definition M (S A : Type) : Type := S → outcome A * S.

Definition ret {S A} (a : A) : M S A := λ σ, (Returned a, σ).

Definition bind {S A B} (m : M S A) (k : A → M S B) : M S B :=
  λ σ, match m σ with
       | (Returned a, σ') => k a σ'
       | (Raised e, σ') => (Raised e, σ')
       end.

(** [range(0, n)] *)
Definition range0 (n : Z) : list Z := seqZ 0 n.

(** [math.ceil(a / b)] on integers, as the exact ceiling of the quotient.
    Python divides in binary64 and then rounds up; [ceil_truediv_binary64]
    below checks that on the whole host brightness scale the two agree. *)
Definition ceil_truediv (a b : Z) : Z := - (- a / b).

(** The same computation carried out as Python does it, in binary64.
    [float_of_int] is exact below 2^53 in absolute value. *)
Definition float_of_int (z : Z) : float :=
  if z <? 0 then PrimFloat.opp (PrimFloat.of_uint63 (Uint63.of_Z (- z)))
  else PrimFloat.of_uint63 (Uint63.of_Z z).

(** [math.ceil] of a float; [None] where Python raises (infinities, NaN). *)
Definition math_ceil (x : float) : option Z :=
  match Prim2SF x with
  | S754_zero _ => Some 0
  | S754_finite s m e =>
      let n := if s then Z.neg m else Z.pos m in
      Some (if 0 <=? e then n * 2 ^ e else - (- n / 2 ^ (- e)))
  | S754_infinity _ | S754_nan => None
  end.

Definition ceil_truediv_float (a b : Z) : option Z :=
  math_ceil (PrimFloat.div (float_of_int a) (float_of_int b)).

End Py.

Notation "m ;; k" := (Py.bind m (λ _, k))
  (at level 100, k at level 200, right associativity).

(** Keys of the service-call dictionary, constants of
    [homeassistant.components.light]. *)
Definition ATTR_BRIGHTNESS : string := "brightness".
Definition ATTR_COLOR_TEMP : string := "color_temp".

(** ** The hub client boundary *)

(** The bound methods of [ics2000.Core.Hub] that the platform hands to
    [repeat] as [callable_function]. *)
Inductive HubMethod : Type :=
| hub_turn_on
| hub_turn_off
| hub_dim
| hub_zigbee_on
| hub_zigbee_off
| hub_zigbee_dim
| hub_zigbee_color_temp.

Global Instance HubMethod_eq_dec : EqDecision HubMethod.
Proof. solve_decision. Defined.

(** The hub object is shared by reference; [HubRef] is its identity. *)
Definition HubRef : Type := nat.

Record Callable : Type := BoundMethod {
  bound_self : HubRef;
  method : HubMethod
}.

Global Instance Callable_eq_dec : EqDecision Callable.
Proof. solve_decision. Defined.

(** ** class KlikAanKlikUitAction(Enum) *)

Inductive KlikAanKlikUitAction : Type :=
| TURN_ON
| TURN_OFF
| DIM
| CHANGE_TEMEPRATURE.

Global Instance KlikAanKlikUitAction_eq_dec : EqDecision KlikAanKlikUitAction.
Proof. solve_decision. Defined.

Definition value (a : KlikAanKlikUitAction) : string :=
  match a with
  | TURN_ON => "on"
  | TURN_OFF => "off"
  | DIM => "dim"
  | CHANGE_TEMEPRATURE => "change_temperature"
  end.

(** ** class KlikAanKlikUitThread(threading.Thread) *)

(** The [kwargs] dictionary given to the thread: [repeat] binds [tries],
    [sleep] and [callable_function] by name, the remaining entries
    ([entity], [level], [color_temp]) are its own [**kwargs]. *)
Record RepeatKwargs : Type := mkRepeatKwargs {
  kw_tries : Z;
  kw_sleep : Z;
  kw_callable_function : Callable;
  kw_rest : gmap string Z
}.

Global Instance RepeatKwargs_eq_dec : EqDecision RepeatKwargs.
Proof. solve_decision. Defined.

(** A thread object: its name and what it runs.  The platform only ever
    passes [target=repeat], so the target is represented by the keyword
    arguments [repeat] is started with. *)
Record Thread : Type := mkThread {
  name : string;
  thread_kwargs : RepeatKwargs
}.

Global Instance Thread_eq_dec : EqDecision Thread.
Proof. solve_decision. Defined.

(** The f-string [kaku{action.value}{device_id}]. *)
Definition thread_name (action : KlikAanKlikUitAction) (device_id : Z) : string :=
  "kaku" +:+ value action +:+ pretty device_id.

(** [KlikAanKlikUitThread.__init__] *)
Definition KlikAanKlikUitThread
    (action : KlikAanKlikUitAction) (device_id : Z) (kwargs : RepeatKwargs) : Thread :=
  {| name := thread_name action device_id; thread_kwargs := kwargs |}.

(** [KlikAanKlikUitThread.has_running_threads]; [enumerate] is the value
    of [threading.enumerate()] at the moment of the call. *)
Definition has_running_threads (enumerate : list Thread) (device_id : Z) : bool :=
  let running_threads :=
    name <$> filter (λ thread, name thread ∈
                       [ thread_name TURN_ON device_id;
                         thread_name DIM device_id;
                         thread_name TURN_OFF device_id ]) enumerate in
  match running_threads with
  | [] => false
  | _ :: _ => true
  end.

(** A thread carries the key [(device_id, action)] when its name is the
    name the constructor gives to that pair. *)
Definition has_key (t : Thread) (device_id : Z) (action : KlikAanKlikUitAction) : Prop :=
  name t = thread_name action device_id.

(** ** def repeat *)

Inductive event : Type :=
| Invoke (f : Callable) (kwargs : gmap string Z)
| Sleep (seconds : Z).

Global Instance event_eq_dec : EqDecision event.
Proof. solve_decision. Defined.

(** Number of invocations recorded in a log, and the total delay asked of
    [time.sleep]. *)
Fixpoint invocations (tr : list event) : nat :=
  match tr with
  | [] => 0%nat
  | Invoke _ _ :: tr' => S (invocations tr')
  | Sleep _ :: tr' => invocations tr'
  end.

Fixpoint total_sleep (tr : list event) : Z :=
  match tr with
  | [] => 0
  | Invoke _ _ :: tr' => total_sleep tr'
  | Sleep seconds :: tr' => seconds + total_sleep tr'
  end.

Section retry.
(** What the hub does with a command is not this module's business: it
    acts on some state [H] of its own and returns or raises. *)
Context {H : Type}.
Variable call : Callable → gmap string Z → H → Py.outcome unit * H.

(** The state a worker runs on: the hub and the log of what happened. *)
Record run_state : Type := mkRun {
  hub_st : H;
  trace : list event
}.

(** The call of [callable_function] on the remaining keyword arguments. *)
Definition invoke (f : Callable) (kwargs : gmap string Z) : Py.M run_state unit :=
  λ σ, let '(r, h') := call f kwargs (hub_st σ) in
       (r, {| hub_st := h'; trace := trace σ ++ [Invoke f kwargs] |}).

(** time.sleep(seconds): ValueError on a negative duration. *)
Definition time_sleep (seconds : Z) : Py.M run_state unit :=
  λ σ, if decide (seconds < 0) then (Py.Raised Py.ValueError, σ)
       else (Py.Returned tt,
             {| hub_st := hub_st σ; trace := trace σ ++ [Sleep seconds] |}).

(** The body of the [for] loop at index [i]. *)
Definition attempt (tries sleep : Z) (f : Callable) (kwargs : gmap string Z)
    (i : Z) : Py.M run_state unit :=
  invoke f kwargs ;;
  time_sleep (if decide (i ≠ tries - 1) then sleep else 0).

(** The [for] loop over the indices still to be visited. *)
Fixpoint repeat_loop (tries sleep : Z) (f : Callable) (kwargs : gmap string Z)
    (indices : list Z) : Py.M run_state unit :=
  match indices with
  | [] => Py.ret tt
  | i :: rest =>
      attempt tries sleep f kwargs i ;;
      repeat_loop tries sleep f kwargs rest
  end.

Definition repeat (tries sleep : Z) (f : Callable) (kwargs : gmap string Z)
    : Py.M run_state unit :=
  repeat_loop tries sleep f kwargs (Py.range0 tries).

(** The hub state one send of [f] on [kwargs] leaves behind. *)
Definition next_hub (f : Callable) (kwargs : gmap string Z) (h : H) : H :=
  (call f kwargs h).2.

End retry.

Arguments run_state H : clear implicits.
Arguments mkRun {H} _ _.

(** ** class KlikAanKlikUitDevice(LightEntity) *)

Module KlikAanKlikUitDevice.

Record t : Type := mk {
  tries : Z;
  sleep : Z;
  _name : string;
  _id : Z;
  _hub : HubRef;
  _state : option bool;
  _brightness : option Z
}.

(** [__init__]: nothing is known about the light yet. *)
Definition init (device_name : string) (device_id : Z) (hub : HubRef)
    (tries sleep : Z) : t :=
  {| tries := tries; sleep := sleep; _name := device_name; _id := device_id;
     _hub := hub; _state := None; _brightness := None |}.

Definition set_brightness (self : t) (v : option Z) : t :=
  {| tries := tries self; sleep := sleep self; _name := _name self;
     _id := _id self; _hub := _hub self; _state := _state self;
     _brightness := v |}.

Definition set_state (self : t) (v : option bool) : t :=
  {| tries := tries self; sleep := sleep self; _name := _name self;
     _id := _id self; _hub := _hub self; _state := v;
     _brightness := _brightness self |}.

(** The properties. *)
Definition name (self : t) : string := _name self.
Definition brightness (self : t) : option Z := _brightness self.
Definition is_on (self : t) : option bool := _state self.

(** The test [self.is_on is None or not self.is_on]. *)
Definition off_or_unknown (self : t) : bool :=
  match is_on self with
  | None => true
  | Some b => negb b
  end.

(** [math.ceil(self.brightness / 17)] *)
Definition dim_level (requested : Z) : Z := Py.ceil_truediv requested 17.

(** The keyword arguments shared by every worker of this entity. *)
Definition job (self : t) (m : HubMethod) (rest : gmap string Z) : RepeatKwargs :=
  {| kw_tries := tries self; kw_sleep := sleep self;
     kw_callable_function := BoundMethod (_hub self) m;
     kw_rest := rest |}.

Definition turn_on (self : t) (kwargs : gmap string Z) (enumerate : list Thread)
    : t * list Thread :=
  if has_running_threads enumerate (_id self) then (self, [])
  else
    let requested := default 255 (kwargs !! ATTR_BRIGHTNESS) in
    let self := set_brightness self (Some requested) in
    let started :=
      if off_or_unknown self then
        [ KlikAanKlikUitThread TURN_ON (_id self)
            (job self hub_turn_on {[ "entity" := _id self ]}) ]
      else
        (* KlikAanKlikUit brightness goes from 1 to 15 so divide by 17 *)
        [ KlikAanKlikUitThread DIM (_id self)
            (job self hub_dim
               (<[ "level" := dim_level requested ]>
                  {[ "entity" := _id self ]})) ] in
    (set_state self (Some true), started).

Definition turn_off (self : t) (kwargs : gmap string Z) (enumerate : list Thread)
    : t * list Thread :=
  if has_running_threads enumerate (_id self) then (self, [])
  else
    let started :=
      [ KlikAanKlikUitThread TURN_OFF (_id self)
          (job self hub_turn_off {[ "entity" := _id self ]}) ] in
    (set_state self (Some false), started).

End KlikAanKlikUitDevice.

(** ** class KlikAanKlikUitZigbeeDevice(LightEntity) *)

Module KlikAanKlikUitZigbeeDevice.

Record t : Type := mk {
  _name : string;
  _id : Z;
  _hub : HubRef;
  _state : option bool;
  _brightness : option Z;
  _color_temp : option Z
}.

Definition init (device_name : string) (device_id : Z) (hub : HubRef) : t :=
  {| _name := device_name; _id := device_id; _hub := hub;
     _state := None; _brightness := None; _color_temp := None |}.

Definition set_brightness (self : t) (v : option Z) : t :=
  {| _name := _name self; _id := _id self; _hub := _hub self;
     _state := _state self; _brightness := v;
     _color_temp := _color_temp self |}.

Definition set_color_temp (self : t) (v : option Z) : t :=
  {| _name := _name self; _id := _id self; _hub := _hub self;
     _state := _state self; _brightness := _brightness self;
     _color_temp := v |}.

Definition set_state (self : t) (v : option bool) : t :=
  {| _name := _name self; _id := _id self; _hub := _hub self;
     _state := v; _brightness := _brightness self;
     _color_temp := _color_temp self |}.

Definition name (self : t) : string := _name self.
Definition brightness (self : t) : option Z := _brightness self.
Definition is_on (self : t) : option bool := _state self.

Definition off_or_unknown (self : t) : bool :=
  match is_on self with
  | None => true
  | Some b => negb b
  end.

(** Every Zigbee worker is started with [tries = 1] and [sleep = 1]. *)
Definition job (self : t) (m : HubMethod) (rest : gmap string Z) : RepeatKwargs :=
  {| kw_tries := 1; kw_sleep := 1;
     kw_callable_function := BoundMethod (_hub self) m;
     kw_rest := rest |}.

Definition on_thread (self : t) : Thread :=
  KlikAanKlikUitThread TURN_ON (_id self)
    (job self hub_zigbee_on {[ "entity" := _id self ]}).

Definition dim_thread (self : t) (level : Z) : Thread :=
  KlikAanKlikUitThread DIM (_id self)
    (job self hub_zigbee_dim (<[ "level" := level ]> {[ "entity" := _id self ]})).

Definition color_temp_thread (self : t) (color_temp : Z) : Thread :=
  KlikAanKlikUitThread CHANGE_TEMEPRATURE (_id self)
    (job self hub_zigbee_color_temp
       (<[ "color_temp" := color_temp ]> {[ "entity" := _id self ]})).

(** [if self._brightness is not None: ... .start()] *)
Definition start_dim (self : t) : list Thread :=
  match _brightness self with
  | Some level => [dim_thread self level]
  | None => []
  end.

(** [if self._color_temp is not None: ... .start()] *)
Definition start_color_temp (self : t) : list Thread :=
  match _color_temp self with
  | Some color_temp => [color_temp_thread self color_temp]
  | None => []
  end.

Definition turn_on (self : t) (kwargs : gmap string Z) (enumerate : list Thread)
    : t * list Thread :=
  if has_running_threads enumerate (_id self) then (self, [])
  else
    let self := set_brightness self (kwargs !! ATTR_BRIGHTNESS) in
    let self := set_color_temp self (kwargs !! ATTR_COLOR_TEMP) in
    let started :=
      if off_or_unknown self then
        [on_thread self] ++ start_dim self ++ start_color_temp self
      else
        start_dim self ++ start_color_temp self in
    (set_state self (Some true), started).

Definition turn_off (self : t) (kwargs : gmap string Z) (enumerate : list Thread)
    : t * list Thread :=
  if has_running_threads enumerate (_id self) then (self, [])
  else
    let started :=
      [ KlikAanKlikUitThread TURN_OFF (_id self)
          (job self hub_zigbee_off {[ "entity" := _id self ]}) ] in
    (set_state self (Some false), started).

End KlikAanKlikUitZigbeeDevice.

(** ** The platform as a running system *)

(** The entities [setup_platform] registers: every hub device that is not a
    sunshade becomes one or the other. *)
Inductive Entity : Type :=
| Standard (d : KlikAanKlikUitDevice.t)
| Zigbee (d : KlikAanKlikUitZigbeeDevice.t).

(** What the host asks of an entity. *)
Inductive Request : Type :=
| requestOn (kwargs : gmap string Z)
| requestOff.

Definition entity_id (e : Entity) : Z :=
  match e with
  | Standard d => KlikAanKlikUitDevice._id d
  | Zigbee d => KlikAanKlikUitZigbeeDevice._id d
  end.

(** The cached state the host reads back. *)
Definition cached_is_on (e : Entity) : option bool :=
  match e with
  | Standard d => KlikAanKlikUitDevice.is_on d
  | Zigbee d => KlikAanKlikUitZigbeeDevice.is_on d
  end.

Definition cached_brightness (e : Entity) : option Z :=
  match e with
  | Standard d => KlikAanKlikUitDevice.brightness d
  | Zigbee d => KlikAanKlikUitZigbeeDevice.brightness d
  end.

Definition cached_color_temp (e : Entity) : option Z :=
  match e with
  | Standard _ => None
  | Zigbee d => KlikAanKlikUitZigbeeDevice._color_temp d
  end.

Definition lift_standard (r : KlikAanKlikUitDevice.t * list Thread)
    : Entity * list Thread := (Standard r.1, r.2).

Definition lift_zigbee (r : KlikAanKlikUitZigbeeDevice.t * list Thread)
    : Entity * list Thread := (Zigbee r.1, r.2).

(** The method call the host makes for a request. *)
Definition dispatch (e : Entity) (r : Request) (enumerate : list Thread)
    : Entity * list Thread :=
  match e, r with
  | Standard d, requestOn kwargs =>
      lift_standard (KlikAanKlikUitDevice.turn_on d kwargs enumerate)
  | Standard d, requestOff =>
      lift_standard (KlikAanKlikUitDevice.turn_off d ∅ enumerate)
  | Zigbee d, requestOn kwargs =>
      lift_zigbee (KlikAanKlikUitZigbeeDevice.turn_on d kwargs enumerate)
  | Zigbee d, requestOff =>
      lift_zigbee (KlikAanKlikUitZigbeeDevice.turn_off d ∅ enumerate)
  end.

(** A started thread: the thread object and the loop indices [repeat] has
    still to visit. *)
Record Worker : Type := mkWorker {
  w_thread : Thread;
  pending : list Z
}.

(** [Thread.start()] *)
Definition start (t : Thread) : Worker :=
  {| w_thread := t; pending := Py.range0 (kw_tries (thread_kwargs t)) |}.

Section system.
Context {H : Type}.
Variable call : Callable → gmap string Z → H → Py.outcome unit * H.

Record World : Type := mkWorld {
  entities : list Entity;
  live : list Worker;
  run : run_state H
}.

(** [threading.enumerate()] *)
Definition enumerate (w : World) : list Thread := w_thread <$> live w.

(** [Thread.run]: the target is called on the thread's keyword arguments. *)
Definition thread_run (t : Thread) : Py.M (run_state H) unit :=
  let kw := thread_kwargs t in
  repeat call (kw_tries kw) (kw_sleep kw) (kw_callable_function kw) (kw_rest kw).

(** One loop iteration of the worker [wk] on the run state [σ]. *)
Definition worker_attempt (wk : Worker) (i : Z) : Py.M (run_state H) unit :=
  let kw := thread_kwargs (w_thread wk) in
  attempt call (kw_tries kw) (kw_sleep kw) (kw_callable_function kw) (kw_rest kw) i.

(** What a live worker can do: finish an iteration, die on an exception
    that nothing catches, or run off the end of its loop. *)
Inductive worker_step : World → World → Prop :=
| worker_iterates w k wk i rest σ' :
    live w !! k = Some wk →
    pending wk = i :: rest →
    worker_attempt wk i (run w) = (Py.Returned tt, σ') →
    worker_step w
      {| entities := entities w;
         live := <[k := {| w_thread := w_thread wk; pending := rest |}]> (live w);
         run := σ' |}
| worker_raises w k wk i rest e σ' :
    live w !! k = Some wk →
    pending wk = i :: rest →
    worker_attempt wk i (run w) = (Py.Raised e, σ') →
    worker_step w
      {| entities := entities w; live := delete k (live w); run := σ' |}
| worker_exits w k wk :
    live w !! k = Some wk →
    pending wk = [] →
    worker_step w
      {| entities := entities w; live := delete k (live w); run := run w |}.

(** The host calls a method of the entity at position [n]; the threads it
    starts join the live ones. *)
Definition after_request (w : World) (n : nat) (e' : Entity)
    (started : list Thread) : World :=
  {| entities := <[n := e']> (entities w);
     live := live w ++ (start <$> started);
     run := run w |}.

Inductive request_step : World → World → Prop :=
| request_dispatched w n e r e' started :
    entities w !! n = Some e →
    dispatch e r (enumerate w) = (e', started) →
    request_step w (after_request w n e' started).

Definition step (w w' : World) : Prop := worker_step w w' ∨ request_step w w'.

End system.

Arguments World H : clear implicits.
Arguments mkWorld {H} _ _ _.

(** ** def setup_platform *)

(** What [type(device)] can be for a device the hub lists: the classes of
    [ics2000.Devices] the platform names, or any other class. *)
Inductive DeviceType : Type :=
| Device
| Dimmer
| Zigbee_Lamp
| Sunshade
| OtherDevice.

Global Instance DeviceType_eq_dec : EqDecision DeviceType.
Proof. solve_decision. Defined.

(** A device object as the platform reads it. *)
Record HubDevice : Type := mkHubDevice {
  dev_type : DeviceType;
  dev_name : string;
  dev_id : Z;
  dev_hub : HubRef
}.

(** The hub object after its constructor has run. *)
Record Hub : Type := mkHub {
  connected : bool;
  devices : list HubDevice
}.

(** What [setup_platform] leaves behind: the entities handed to
    [add_entities], in order, the lines printed and the errors logged. *)
Record Platform : Type := mkPlatform {
  added : list Entity;
  printed : list string;
  logged_errors : list string
}.

(** The generator of the first [add_entities] call.  The [_attr_*] lists
    [__init__] also sets are host metadata no method reads. *)
Definition standard_entities (hub : Hub) (config : gmap string Z) : list Entity :=
  (λ device,
     Standard (KlikAanKlikUitDevice.init (dev_name device) (dev_id device)
                 (dev_hub device)
                 (default 3 (config !! "tries"))
                 (default 3 (config !! "sleep"))))
  <$> filter (λ device, Sunshade ≠ dev_type device ∧ Zigbee_Lamp ≠ dev_type device)
        (devices hub).

(** The generator of the second [add_entities] call. *)
Definition zigbee_entities (hub : Hub) : list Entity :=
  (λ device,
     Zigbee (KlikAanKlikUitZigbeeDevice.init (dev_name device) (dev_id device)
               (dev_hub device)))
  <$> filter (λ device, Zigbee_Lamp = dev_type device) (devices hub).

Definition setup_platform (hub : Hub) (config : gmap string Z) : Platform :=
  if negb (connected hub) then
    {| added := []; printed := [];
       logged_errors := ["Could not connect to ICS2000 hub"] |}
  else
    let zigbeeDevices :=
      filter (λ device, Zigbee_Lamp = dev_type device) (devices hub) in
    {| added := standard_entities hub config ++ zigbee_entities hub;
       printed :=
         [ "Added " +:+ pretty (length (devices hub))
             +:+ " devices to Home Assistant";
           "Added " +:+ pretty (length zigbeeDevices)
             +:+ " Zigbee devices to Home Assistant" ];
       logged_errors := [] |}.

(** ** Counting live threads by key *)

Global Instance has_key_dec t d a : Decision (has_key t d a).
Proof. unfold has_key. apply _. Defined.

(** How many of the threads are named for the key [(device_id, action)]. *)
Definition live_with_key (enum : list Thread) (device_id : Z)
    (action : KlikAanKlikUitAction) : nat :=
  length (filter (λ t, has_key t device_id action) enum).

(** Mutual exclusion as the guard is meant to give it: of the names the
    guard looks for, each is carried by at most one thread. *)
Definition exclusive (enum : list Thread) : Prop :=
  ∀ device_id action,
    action ≠ CHANGE_TEMEPRATURE →
    (live_with_key enum device_id action ≤ 1)%nat.

(** What [__init__] fixes for good: the class, the name, the id, the hub
    and, for a standard entity, the retry policy. *)
Definition entity_identity (e : Entity)
    : bool * string * Z * HubRef * option (Z * Z) :=
  match e with
  | Standard d =>
      (false, KlikAanKlikUitDevice._name d, KlikAanKlikUitDevice._id d,
       KlikAanKlikUitDevice._hub d,
       Some (KlikAanKlikUitDevice.tries d, KlikAanKlikUitDevice.sleep d))
  | Zigbee d =>
      (true, KlikAanKlikUitZigbeeDevice._name d, KlikAanKlikUitZigbeeDevice._id d,
       KlikAanKlikUitZigbeeDevice._hub d, None)
  end.

(** ** Fixtures: the devices of the example scenarios *)

Module Scenario.

(** A hub whose commands always go through, and one that always fails. *)
Definition reliable_hub : Callable → gmap string Z → nat → Py.outcome unit * nat :=
  λ _ _ sent, (Py.Returned tt, S sent).

Definition failing_hub : Callable → gmap string Z → nat → Py.outcome unit * nat :=
  λ _ _ sent, (Py.Raised Py.HubError, sent).

(** D1, a dimmer with the default retry policy, as registered. *)
Definition D1 : KlikAanKlikUitDevice.t :=
  KlikAanKlikUitDevice.init "D1" 7 0%nat 3 3.

(** D1 once it has been switched on at brightness 85. *)
Definition D1_on : KlikAanKlikUitDevice.t :=
  KlikAanKlikUitDevice.set_state
    (KlikAanKlikUitDevice.set_brightness D1 (Some 85)) (Some true).

(** Z1, a Zigbee lamp, as registered and once switched on. *)
Definition Z1 : KlikAanKlikUitZigbeeDevice.t :=
  KlikAanKlikUitZigbeeDevice.init "Z1" 9 0%nat.

Definition Z1_on : KlikAanKlikUitZigbeeDevice.t :=
  KlikAanKlikUitZigbeeDevice.set_state
    (KlikAanKlikUitZigbeeDevice.set_brightness Z1 (Some 100)) (Some true).

(** The turn-on worker of D1. *)
Definition D1_turning_on : Thread :=
  KlikAanKlikUitThread TURN_ON 7
    (KlikAanKlikUitDevice.job D1 hub_turn_on {[ "entity" := 7 ]}).

(** A color-temperature worker of Z1. *)
Definition Z1_changing_temperature : Thread :=
  KlikAanKlikUitZigbeeDevice.color_temp_thread Z1_on 250.

Definition idle : run_state nat := mkRun 0%nat [].

(** A hub that lists a switch, a dimmer, a sunshade and a Zigbee lamp. *)
Definition home : Hub :=
  {| connected := true;
     devices :=
       [ mkHubDevice Device "switch" 5 0%nat;
         mkHubDevice Dimmer "D1" 7 0%nat;
         mkHubDevice Sunshade "shade" 8 0%nat;
         mkHubDevice Zigbee_Lamp "Z1" 9 0%nat ] |}.

(** A hub whose commands go through twice and fail from then on. *)
Definition flaky_hub : Callable → gmap string Z → nat → Py.outcome unit * nat :=
  λ _ _ sent,
    (if decide (sent < 2)%nat then Py.Returned tt else Py.Raised Py.HubError,
     S sent).

End Scenario.

(** * Properties *)

(** ** Thread names as keys *)

Lemma value_prefix_free a a' s s' :
  value a +:+ s = value a' +:+ s' → a = a' ∧ s = s'.
Proof.
  destruct a, a'; cbn; intros Heq; simplify_eq; done.
Qed.

(** The name determines the pair it was built from: no two keys share a
    thread name. *)
Lemma thread_name_inj a a' d d' :
  thread_name a d = thread_name a' d' → a = a' ∧ d = d'.
Proof.
  unfold thread_name. cbn. intros Heq. simplify_eq.
  match goal with
  | Hv : value _ +:+ _ = value _ +:+ _ |- _ =>
      apply value_prefix_free in Hv as [-> Hd]
  end.
  split; [done | by apply (inj pretty)].
Qed.

Lemma has_key_unique t d a d' a' :
  has_key t d a → has_key t d' a' → d = d' ∧ a = a'.
Proof.
  unfold has_key. intros -> Heq.
  apply thread_name_inj in Heq as [-> ->]. done.
Qed.

(** The three names the guard looks for. *)
Definition guarded (t : Thread) (device_id : Z) : Prop :=
  has_key t device_id TURN_ON ∨ has_key t device_id DIM ∨
  has_key t device_id TURN_OFF.

Lemma guarded_elem_of t d :
  guarded t d ↔
  name t ∈ [thread_name TURN_ON d; thread_name DIM d; thread_name TURN_OFF d].
Proof.
  unfold guarded, has_key. rewrite !elem_of_cons, elem_of_nil. tauto.
Qed.

Lemma has_running_threads_spec (enum : list Thread) d :
  has_running_threads enum d = true ↔ ∃ t, t ∈ enum ∧ guarded t d.
Proof.
  unfold has_running_threads.
  induction enum as [|t enum IH].
  - cbn. split; [done | intros (t & Ht & _); by apply elem_of_nil in Ht].
  - rewrite filter_cons. destruct (decide _) as [Hin | Hnin].
    + cbn. split; [intros _ | done].
      exists t. split; [left | by apply guarded_elem_of].
    + rewrite IH. split.
      * intros (t' & Ht' & Hg). exists t'. split; [by right | done].
      * intros (t' & [-> | Ht']%elem_of_cons & Hg).
        -- by apply guarded_elem_of in Hg.
        -- by exists t'.
Qed.

Lemma has_running_threads_false (enum : list Thread) d :
  has_running_threads enum d = false ↔ ∀ t, t ∈ enum → ¬ guarded t d.
Proof.
  rewrite <- not_true_iff_false, has_running_threads_spec. split.
  - intros Hnone t Ht Hg. apply Hnone. by exists t.
  - intros Hall (t & Ht & Hg). by apply (Hall t).
Qed.

(** A color-temperature name is none of the three the guard looks for,
    whatever the devices. *)
Lemma change_temperature_not_guarded t d d' :
  has_key t d' CHANGE_TEMEPRATURE → ¬ guarded t d.
Proof.
  intros Hk [Hg | [Hg | Hg]];
    by destruct (has_key_unique _ _ _ _ _ Hk Hg) as [_ ?].
Qed.

Lemma has_running_threads_cons_unguarded t (enum : list Thread) d :
  ¬ guarded t d →
  has_running_threads (t :: enum) d = has_running_threads enum d.
Proof.
  intros Hng. unfold has_running_threads. rewrite filter_cons.
  destruct (decide _) as [Hin | _]; [| done].
  by apply guarded_elem_of in Hin.
Qed.

(** The methods consult the live threads through the guard alone. *)
Lemma dispatch_guard e r (enum enum' : list Thread) :
  has_running_threads enum (entity_id e) =
    has_running_threads enum' (entity_id e) →
  dispatch e r enum = dispatch e r enum'.
Proof.
  destruct e as [d | d], r as [kwargs |]; cbn; intros Hg;
    unfold KlikAanKlikUitDevice.turn_on, KlikAanKlikUitDevice.turn_off,
      KlikAanKlikUitZigbeeDevice.turn_on, KlikAanKlikUitZigbeeDevice.turn_off;
    by rewrite Hg.
Qed.

Lemma dispatch_busy e r (enum : list Thread) :
  has_running_threads enum (entity_id e) = true →
  dispatch e r enum = (e, []).
Proof.
  destruct e as [d | d], r as [kwargs |]; cbn; intros Hg;
    unfold KlikAanKlikUitDevice.turn_on, KlikAanKlikUitDevice.turn_off,
      KlikAanKlikUitZigbeeDevice.turn_on, KlikAanKlikUitZigbeeDevice.turn_off;
    by rewrite Hg.
Qed.

(** ** The admission guard *)

(** C8. [has_running_threads] answers true exactly when some live thread
    carries the key (device, on), (device, dim) or (device, off).  A live
    thread with a change-temperature key never counts: adding it leaves the
    answer as it was, and a request made while only such threads are live
    is handled exactly as if no thread were live at all. *)
Theorem guard_checks_on_dim_off_only (enum : list Thread) (d : Z) :
  (has_running_threads enum d = true ↔
     ∃ t, t ∈ enum ∧
       (has_key t d TURN_ON ∨ has_key t d DIM ∨ has_key t d TURN_OFF))
  ∧ (∀ t, has_key t d CHANGE_TEMEPRATURE →
       has_running_threads (t :: enum) d = has_running_threads enum d)
  ∧ (∀ e r, entity_id e = d →
       (∀ t, t ∈ enum → has_key t d CHANGE_TEMEPRATURE) →
       has_running_threads enum d = false ∧
       dispatch e r enum = dispatch e r []).
Proof.
  split; [apply has_running_threads_spec |]. split.
  - intros t Hk. apply has_running_threads_cons_unguarded.
    by eapply change_temperature_not_guarded.
  - intros e r <- Hall.
    assert (has_running_threads enum (entity_id e) = false) as Hfree.
    { apply has_running_threads_false. intros t Ht.
      eapply change_temperature_not_guarded. by apply Hall. }
    split; [done |]. apply dispatch_guard. by rewrite Hfree.
Qed.

(** C1. A request that arrives while a thread keyed (device, on),
    (device, dim) or (device, off) is live is dropped: the method returns
    the entity as it was, so [_state], [_brightness] and [_color_temp] keep
    their values, and no thread is started.  This holds for both entity
    classes and for both requests. *)
Theorem busy_request_dropped (e : Entity) (r : Request)
    (enum : list Thread) (t : Thread) :
  t ∈ enum →
  has_key t (entity_id e) TURN_ON ∨ has_key t (entity_id e) DIM ∨
    has_key t (entity_id e) TURN_OFF →
  dispatch e r enum = (e, []).
Proof.
  intros Ht Hk. apply dispatch_busy, has_running_threads_spec. by exists t.
Qed.

Lemma busy_request_dropped_witness :
  dispatch (Standard Scenario.D1_on) requestOff [Scenario.D1_turning_on]
  = (Standard Scenario.D1_on, []).
Proof.
  apply (busy_request_dropped (Standard Scenario.D1_on) requestOff
           [Scenario.D1_turning_on] Scenario.D1_turning_on).
  - apply list_elem_of_here.
  - left. reflexivity.
Defined.

(** ** The retry loop *)

Lemma invocations_app tr1 tr2 :
  invocations (tr1 ++ tr2) = (invocations tr1 + invocations tr2)%nat.
Proof.
  induction tr1 as [|[f kw | s] tr1 IH]; cbn; [done | by rewrite IH | done].
Qed.

Lemma total_sleep_app tr1 tr2 :
  total_sleep (tr1 ++ tr2) = total_sleep tr1 + total_sleep tr2.
Proof.
  induction tr1 as [|[f kw | s] tr1 IH]; cbn; [done | done | rewrite IH; lia].
Qed.

(** What [n] rounds of invoke-then-sleep leave in the log. *)
Lemma invocations_rounds n f kw s :
  invocations (mjoin (replicate n [Invoke f kw; Sleep s])) = n.
Proof.
  induction n as [|n IH]; [done |].
  change (invocations ([Invoke f kw; Sleep s]
            ++ mjoin (replicate n [Invoke f kw; Sleep s])) = Datatypes.S n).
  rewrite invocations_app, IH. done.
Qed.

Lemma total_sleep_rounds n f kw s :
  total_sleep (mjoin (replicate n [Invoke f kw; Sleep s])) = Z.of_nat n * s.
Proof.
  induction n as [|n IH]; [done |].
  change (total_sleep ([Invoke f kw; Sleep s]
            ++ mjoin (replicate n [Invoke f kw; Sleep s]))
          = Z.of_nat (Datatypes.S n) * s).
  rewrite total_sleep_app, IH. cbn [total_sleep]. lia.
Qed.

Section retry_properties.
Context {H : Type}.
Variable call : Callable → gmap string Z → H → Py.outcome unit * H.

Variables (N S : Z) (f : Callable) (kw : gmap string Z).
Hypothesis sleep_nonneg : 0 ≤ S.
Hypothesis never_raises : ∀ h, (call f kw h).1 = Py.Returned tt.

(** One iteration that goes through: the command is sent once and the
    loop then sleeps, for zero seconds when the index is the last one. *)
Lemma attempt_returns i σ :
  attempt call N S f kw i σ =
    (Py.Returned tt,
     mkRun (call f kw (hub_st σ)).2
       (trace σ ++ [Invoke f kw; Sleep (if decide (i ≠ N - 1) then S else 0)])).
Proof using sleep_nonneg never_raises.
  unfold attempt, Py.bind, invoke, time_sleep.
  pose proof (never_raises (hub_st σ)) as Hret.
  destruct (call f kw (hub_st σ)) as [r h']. cbn in Hret. subst r. cbn.
  destruct (decide (i ≠ N - 1)); (destruct (decide _); [lia |]);
    by rewrite <- app_assoc.
Qed.

Lemma repeat_loop_returns n : ∀ k σ,
  k + Z.of_nat (Datatypes.S n) = N →
  repeat_loop call N S f kw (seqZ k (Z.of_nat (Datatypes.S n))) σ =
    (Py.Returned tt,
     mkRun (Nat.iter (Datatypes.S n) (λ h, (call f kw h).2) (hub_st σ))
       (trace σ ++ mjoin (replicate n [Invoke f kw; Sleep S])
          ++ [Invoke f kw; Sleep 0])).
Proof using sleep_nonneg never_raises.
  induction n as [|n IH]; intros k σ Hk.
  - rewrite seqZ_cons by lia. cbn [repeat_loop]. unfold Py.bind at 1.
    rewrite attempt_returns.
    replace (Z.pred (Z.of_nat 1)) with 0 by lia. cbn [seqZ repeat_loop].
    rewrite decide_False by lia. done.
  - rewrite seqZ_cons by lia. cbn [repeat_loop]. unfold Py.bind at 1.
    rewrite attempt_returns.
    replace (Z.pred (Z.of_nat (Datatypes.S (Datatypes.S n))))
      with (Z.of_nat (Datatypes.S n)) by lia.
    rewrite IH by lia. cbn [hub_st trace].
    rewrite decide_True by lia.
    rewrite (Nat.iter_succ_r (Datatypes.S n) (λ h, (call f kw h).2) (hub_st σ)).
    cbn beta. f_equal. f_equal.
    change (mjoin (replicate (Datatypes.S n) [Invoke f kw; Sleep S]))
      with ([Invoke f kw; Sleep S] ++ mjoin (replicate n [Invoke f kw; Sleep S])).
    by rewrite <- !app_assoc.
Qed.

End retry_properties.

(** C2. With at least one try, a non-negative delay and a command that
    never raises, [repeat] returns normally after sending the command
    exactly [N] times.  Each of the first [N - 1] sends is followed by a
    sleep of [S] seconds; the last one is followed by [time.sleep(0)] only,
    so the delays add up to [(N - 1) * S]. *)
Theorem repeat_invokes_exactly_tries {H : Type}
    (call : Callable → gmap string Z → H → Py.outcome unit * H)
    (N S : Z) (action : Callable) (params : gmap string Z) (σ : run_state H) :
  1 ≤ N →
  0 ≤ S →
  (∀ h, (call action params h).1 = Py.Returned tt) →
  ∃ σ', repeat call N S action params σ = (Py.Returned tt, σ')
    ∧ hub_st σ' = Nat.iter (Z.to_nat N) (λ h, (call action params h).2) (hub_st σ)
    ∧ trace σ' = trace σ
        ++ mjoin (replicate (Z.to_nat (N - 1)) [Invoke action params; Sleep S])
        ++ [Invoke action params; Sleep 0]
    ∧ invocations (trace σ') = (invocations (trace σ) + Z.to_nat N)%nat
    ∧ total_sleep (trace σ') = total_sleep (trace σ) + (N - 1) * S.
Proof.
  intros HN HS Hok.
  pose proof (repeat_loop_returns call N S action params HS Hok
                (Z.to_nat (N - 1)) 0 σ) as Hloop.
  replace (Z.of_nat (Datatypes.S (Z.to_nat (N - 1)))) with N in Hloop by lia.
  eexists. split.
  - apply Hloop. lia.
  - cbn [hub_st trace].
    replace (Datatypes.S (Z.to_nat (N - 1))) with (Z.to_nat N) by lia.
    split; [done |]. split; [done |].
    rewrite !invocations_app, !total_sleep_app.
    rewrite invocations_rounds, total_sleep_rounds.
    cbn [invocations total_sleep]. split; [lia |].
    rewrite Z2Nat.id by lia. lia.
Qed.

Lemma repeat_invokes_exactly_tries_witness :
  ∃ σ',
    repeat Scenario.reliable_hub 3 3 (BoundMethod 0%nat hub_turn_on)
      {[ "entity" := 7 ]} Scenario.idle = (Py.Returned tt, σ')
    ∧ hub_st σ' =
        Nat.iter (Z.to_nat 3)
          (λ h, (Scenario.reliable_hub (BoundMethod 0%nat hub_turn_on)
                   {[ "entity" := 7 ]} h).2) (hub_st Scenario.idle)
    ∧ trace σ' = trace Scenario.idle
        ++ mjoin (replicate (Z.to_nat (3 - 1))
                    [Invoke (BoundMethod 0%nat hub_turn_on) {[ "entity" := 7 ]}; Sleep 3])
        ++ [Invoke (BoundMethod 0%nat hub_turn_on) {[ "entity" := 7 ]}; Sleep 0]
    ∧ invocations (trace σ') = (invocations (trace Scenario.idle) + Z.to_nat 3)%nat
    ∧ total_sleep (trace σ') = total_sleep (trace Scenario.idle) + (3 - 1) * 3.
Proof.
  apply (repeat_invokes_exactly_tries Scenario.reliable_hub 3 3
           (BoundMethod 0%nat hub_turn_on) {[ "entity" := 7 ]} Scenario.idle).
  - lia.
  - lia.
  - intros h. reflexivity.
Defined.

(** Scenario 1 run to the end: three sends, two delays of three seconds. *)
Example repeat_three_tries :
  repeat Scenario.reliable_hub 3 3 (BoundMethod 0%nat hub_turn_on)
    {[ "entity" := 7 ]} Scenario.idle
  = (Py.Returned tt,
     mkRun 3%nat
       [ Invoke (BoundMethod 0%nat hub_turn_on) {[ "entity" := 7 ]}; Sleep 3;
         Invoke (BoundMethod 0%nat hub_turn_on) {[ "entity" := 7 ]}; Sleep 3;
         Invoke (BoundMethod 0%nat hub_turn_on) {[ "entity" := 7 ]}; Sleep 0 ]).
Proof. reflexivity. Qed.

(** A command that raises ends the loop at once: nothing catches it. *)
Example repeat_stops_on_error :
  repeat Scenario.failing_hub 3 3 (BoundMethod 0%nat hub_turn_on)
    {[ "entity" := 7 ]} Scenario.idle
  = (Py.Raised Py.HubError,
     mkRun 0%nat [ Invoke (BoundMethod 0%nat hub_turn_on) {[ "entity" := 7 ]} ]).
Proof. reflexivity. Qed.

(** ** Brightness conversion *)

(** On the host scale the exact ceiling is what Python computes: dividing in
    binary64 and rounding up gives the same integer for every brightness
    from 0 to 255. *)
Lemma ceil_truediv_binary64_scan :
  forallb (λ b, bool_decide (Py.ceil_truediv_float b 17
                             = Some (Py.ceil_truediv b 17))) (seqZ 0 256) = true.
Proof. vm_compute. reflexivity. Qed.

Lemma ceil_truediv_binary64 b :
  0 ≤ b ≤ 255 →
  Py.ceil_truediv_float b 17 = Some (KlikAanKlikUitDevice.dim_level b).
Proof.
  intros Hb. pose proof ceil_truediv_binary64_scan as Hscan.
  rewrite forallb_forall in Hscan. specialize (Hscan b).
  apply bool_decide_eq_true in Hscan; [done |].
  apply list_elem_of_In, elem_of_seqZ. lia.
Qed.

Lemma dim_level_bounds b lo hi :
  17 * (lo - 1) < b → b ≤ 17 * hi →
  lo ≤ KlikAanKlikUitDevice.dim_level b ≤ hi.
Proof.
  intros Hlo Hhi. unfold KlikAanKlikUitDevice.dim_level, Py.ceil_truediv.
  pose proof (Z.div_mod (- b) 17 ltac:(lia)) as Hdm.
  pose proof (Z.mod_pos_bound (- b) 17 ltac:(lia)) as Hmod.
  lia.
Qed.

(** C6. The level sent to a dimmer, [ceil(brightness / 17)], lies between 1
    and 15 for every host brightness from 1 to 255.  At brightness 0 it is
    0, which is outside the 1 to 15 range of the device. *)
Theorem dim_level_range :
  (∀ hostBrightness, 1 ≤ hostBrightness ≤ 255 →
     1 ≤ KlikAanKlikUitDevice.dim_level hostBrightness ≤ 15)
  ∧ KlikAanKlikUitDevice.dim_level 0 = 0
  ∧ ¬ (1 ≤ KlikAanKlikUitDevice.dim_level 0 ≤ 15).
Proof.
  split; [| split].
  - intros b Hb. apply dim_level_bounds; lia.
  - reflexivity.
  - change (¬ (1 ≤ 0 ≤ 15)). lia.
Qed.

Lemma dim_level_range_witness :
  1 ≤ KlikAanKlikUitDevice.dim_level 255 ≤ 15
  ∧ 1 ≤ KlikAanKlikUitDevice.dim_level 1 ≤ 15.
Proof.
  split; apply (proj1 dim_level_range); lia.
Defined.

Example dim_level_51 : KlikAanKlikUitDevice.dim_level 51 = 3.
Proof. reflexivity. Qed.

Example dim_level_52 : KlikAanKlikUitDevice.dim_level 52 = 4.
Proof. reflexivity. Qed.

(** ** The standard dispatcher *)

(** What [turn_on] does once the guard has let the call through. *)
Lemma standard_turn_on_free
    (self : KlikAanKlikUitDevice.t) (kwargs : gmap string Z) (enum : list Thread) :
  has_running_threads enum (KlikAanKlikUitDevice._id self) = false →
  KlikAanKlikUitDevice.turn_on self kwargs enum =
    ({| KlikAanKlikUitDevice.tries := KlikAanKlikUitDevice.tries self;
        KlikAanKlikUitDevice.sleep := KlikAanKlikUitDevice.sleep self;
        KlikAanKlikUitDevice._name := KlikAanKlikUitDevice._name self;
        KlikAanKlikUitDevice._id := KlikAanKlikUitDevice._id self;
        KlikAanKlikUitDevice._hub := KlikAanKlikUitDevice._hub self;
        KlikAanKlikUitDevice._state := Some true;
        KlikAanKlikUitDevice._brightness :=
          Some (default 255 (kwargs !! ATTR_BRIGHTNESS)) |},
     if KlikAanKlikUitDevice.off_or_unknown self then
       [ KlikAanKlikUitThread TURN_ON (KlikAanKlikUitDevice._id self)
           (KlikAanKlikUitDevice.job self hub_turn_on
              {[ "entity" := KlikAanKlikUitDevice._id self ]}) ]
     else
       [ KlikAanKlikUitThread DIM (KlikAanKlikUitDevice._id self)
           (KlikAanKlikUitDevice.job self hub_dim
              (<[ "level" := KlikAanKlikUitDevice.dim_level
                               (default 255 (kwargs !! ATTR_BRIGHTNESS)) ]>
                 {[ "entity" := KlikAanKlikUitDevice._id self ]})) ]).
Proof.
  intros Hfree. unfold KlikAanKlikUitDevice.turn_on. rewrite Hfree.
  reflexivity.
Qed.

(** C3. A standard device that is not busy starts exactly one thread on
    [turn_on].  While the cached state is unknown or off it is the turn-on
    worker, whether or not a brightness came with the call; while the cached
    state is on it is the dim worker, at level [ceil(brightness / 17)] of
    the requested brightness (255 when none was given). *)
Theorem standard_turn_on_spawns_one
    (self : KlikAanKlikUitDevice.t) (kwargs : gmap string Z) (enum : list Thread) :
  has_running_threads enum (KlikAanKlikUitDevice._id self) = false →
  (KlikAanKlikUitDevice.is_on self = None ∨
   KlikAanKlikUitDevice.is_on self = Some false →
     (KlikAanKlikUitDevice.turn_on self kwargs enum).2 =
       [ KlikAanKlikUitThread TURN_ON (KlikAanKlikUitDevice._id self)
           {| kw_tries := KlikAanKlikUitDevice.tries self;
              kw_sleep := KlikAanKlikUitDevice.sleep self;
              kw_callable_function :=
                BoundMethod (KlikAanKlikUitDevice._hub self) hub_turn_on;
              kw_rest := {[ "entity" := KlikAanKlikUitDevice._id self ]} |} ])
  ∧ (KlikAanKlikUitDevice.is_on self = Some true →
     (KlikAanKlikUitDevice.turn_on self kwargs enum).2 =
       [ KlikAanKlikUitThread DIM (KlikAanKlikUitDevice._id self)
           {| kw_tries := KlikAanKlikUitDevice.tries self;
              kw_sleep := KlikAanKlikUitDevice.sleep self;
              kw_callable_function :=
                BoundMethod (KlikAanKlikUitDevice._hub self) hub_dim;
              kw_rest :=
                <[ "level" := Py.ceil_truediv
                                (default 255 (kwargs !! ATTR_BRIGHTNESS)) 17 ]>
                  {[ "entity" := KlikAanKlikUitDevice._id self ]} |} ]).
Proof.
  intros Hfree. rewrite standard_turn_on_free by done.
  unfold KlikAanKlikUitDevice.off_or_unknown. cbn [snd].
  split.
  - intros [-> | ->]; reflexivity.
  - intros ->. reflexivity.
Qed.

Lemma standard_turn_on_spawns_one_witness :
  (KlikAanKlikUitDevice.turn_on Scenario.D1 {[ ATTR_BRIGHTNESS := 85 ]} []).2
  = [ KlikAanKlikUitThread TURN_ON 7
        {| kw_tries := 3; kw_sleep := 3;
           kw_callable_function := BoundMethod 0%nat hub_turn_on;
           kw_rest := {[ "entity" := 7 ]} |} ].
Proof.
  apply (proj1 (standard_turn_on_spawns_one Scenario.D1
                  {[ ATTR_BRIGHTNESS := 85 ]} [] eq_refl)).
  left. reflexivity.
Defined.

(** Scenario 2: D1 is on and is asked for brightness 51. *)
Example standard_dim_51 :
  KlikAanKlikUitDevice.turn_on Scenario.D1_on {[ ATTR_BRIGHTNESS := 51 ]} []
  = (KlikAanKlikUitDevice.set_brightness Scenario.D1_on (Some 51),
     [ KlikAanKlikUitThread DIM 7
         {| kw_tries := 3; kw_sleep := 3;
            kw_callable_function := BoundMethod 0%nat hub_dim;
            kw_rest := <[ "level" := 3 ]> {[ "entity" := 7 ]} |} ]).
Proof. reflexivity. Qed.

(** C9. When [turn_on] of a standard device that is not busy is called
    without a brightness, the cached brightness becomes 255; if the cached
    state was already on, the dim worker it starts carries level 15. *)
Theorem standard_turn_on_default_brightness
    (self : KlikAanKlikUitDevice.t) (kwargs : gmap string Z) (enum : list Thread) :
  has_running_threads enum (KlikAanKlikUitDevice._id self) = false →
  kwargs !! ATTR_BRIGHTNESS = None →
  KlikAanKlikUitDevice.brightness
    (KlikAanKlikUitDevice.turn_on self kwargs enum).1 = Some 255
  ∧ (KlikAanKlikUitDevice.is_on self = Some true →
     (KlikAanKlikUitDevice.turn_on self kwargs enum).2 =
       [ KlikAanKlikUitThread DIM (KlikAanKlikUitDevice._id self)
           {| kw_tries := KlikAanKlikUitDevice.tries self;
              kw_sleep := KlikAanKlikUitDevice.sleep self;
              kw_callable_function :=
                BoundMethod (KlikAanKlikUitDevice._hub self) hub_dim;
              kw_rest :=
                <[ "level" := 15 ]>
                  {[ "entity" := KlikAanKlikUitDevice._id self ]} |} ]).
Proof.
  intros Hfree Habsent. rewrite standard_turn_on_free by done.
  rewrite Habsent. unfold KlikAanKlikUitDevice.off_or_unknown. cbn [fst snd].
  split; [reflexivity |]. intros ->. reflexivity.
Qed.

Lemma standard_turn_on_default_brightness_witness :
  KlikAanKlikUitDevice.brightness
    (KlikAanKlikUitDevice.turn_on Scenario.D1_on ∅ []).1 = Some 255
  ∧ (KlikAanKlikUitDevice.turn_on Scenario.D1_on ∅ []).2 =
      [ KlikAanKlikUitThread DIM 7
          {| kw_tries := 3; kw_sleep := 3;
             kw_callable_function := BoundMethod 0%nat hub_dim;
             kw_rest := <[ "level" := 15 ]> {[ "entity" := 7 ]} |} ].
Proof.
  destruct (standard_turn_on_default_brightness Scenario.D1_on ∅ [])
    as [Hcached Hdim]; [reflexivity | reflexivity |].
  split; [exact Hcached | apply Hdim; reflexivity].
Defined.

(** ** The Zigbee dispatcher *)

(** What [turn_on] does once the guard has let the call through. *)
Lemma zigbee_turn_on_free
    (self : KlikAanKlikUitZigbeeDevice.t) (kwargs : gmap string Z)
    (enum : list Thread) :
  has_running_threads enum (KlikAanKlikUitZigbeeDevice._id self) = false →
  KlikAanKlikUitZigbeeDevice.turn_on self kwargs enum =
    ({| KlikAanKlikUitZigbeeDevice._name := KlikAanKlikUitZigbeeDevice._name self;
        KlikAanKlikUitZigbeeDevice._id := KlikAanKlikUitZigbeeDevice._id self;
        KlikAanKlikUitZigbeeDevice._hub := KlikAanKlikUitZigbeeDevice._hub self;
        KlikAanKlikUitZigbeeDevice._state := Some true;
        KlikAanKlikUitZigbeeDevice._brightness := kwargs !! ATTR_BRIGHTNESS;
        KlikAanKlikUitZigbeeDevice._color_temp := kwargs !! ATTR_COLOR_TEMP |},
     (if KlikAanKlikUitZigbeeDevice.off_or_unknown self
      then [KlikAanKlikUitZigbeeDevice.on_thread self] else [])
     ++ from_option (λ b, [KlikAanKlikUitZigbeeDevice.dim_thread self b]) []
          (kwargs !! ATTR_BRIGHTNESS)
     ++ from_option (λ c, [KlikAanKlikUitZigbeeDevice.color_temp_thread self c]) []
          (kwargs !! ATTR_COLOR_TEMP)).
Proof.
  intros Hfree. unfold KlikAanKlikUitZigbeeDevice.turn_on. rewrite Hfree.
  unfold KlikAanKlikUitZigbeeDevice.off_or_unknown,
    KlikAanKlikUitZigbeeDevice.start_dim,
    KlikAanKlikUitZigbeeDevice.start_color_temp.
  destruct self as [nm id hub st br ct]. cbn.
  destruct (kwargs !! ATTR_BRIGHTNESS), (kwargs !! ATTR_COLOR_TEMP),
    st as [[|]|]; reflexivity.
Qed.

(** C4. A Zigbee lamp that is not busy and whose cached state is unknown or
    off, asked to turn on with both a brightness and a color temperature,
    starts exactly three threads: the on-command, the dim command at the
    brightness as given, and the color-temperature command at the value
    given.  Each is started with [tries = 1], so its loop has the single
    index 0. *)
Theorem zigbee_turn_on_from_off_spawns_three
    (self : KlikAanKlikUitZigbeeDevice.t) (kwargs : gmap string Z)
    (enum : list Thread) (brightness colorTemperature : Z) :
  has_running_threads enum (KlikAanKlikUitZigbeeDevice._id self) = false →
  KlikAanKlikUitZigbeeDevice.is_on self = None ∨
    KlikAanKlikUitZigbeeDevice.is_on self = Some false →
  kwargs !! ATTR_BRIGHTNESS = Some brightness →
  kwargs !! ATTR_COLOR_TEMP = Some colorTemperature →
  (KlikAanKlikUitZigbeeDevice.turn_on self kwargs enum).2 =
    [ KlikAanKlikUitThread TURN_ON (KlikAanKlikUitZigbeeDevice._id self)
        {| kw_tries := 1; kw_sleep := 1;
           kw_callable_function :=
             BoundMethod (KlikAanKlikUitZigbeeDevice._hub self) hub_zigbee_on;
           kw_rest := {[ "entity" := KlikAanKlikUitZigbeeDevice._id self ]} |};
      KlikAanKlikUitThread DIM (KlikAanKlikUitZigbeeDevice._id self)
        {| kw_tries := 1; kw_sleep := 1;
           kw_callable_function :=
             BoundMethod (KlikAanKlikUitZigbeeDevice._hub self) hub_zigbee_dim;
           kw_rest := <[ "level" := brightness ]>
                        {[ "entity" := KlikAanKlikUitZigbeeDevice._id self ]} |};
      KlikAanKlikUitThread CHANGE_TEMEPRATURE (KlikAanKlikUitZigbeeDevice._id self)
        {| kw_tries := 1; kw_sleep := 1;
           kw_callable_function :=
             BoundMethod (KlikAanKlikUitZigbeeDevice._hub self)
               hub_zigbee_color_temp;
           kw_rest := <[ "color_temp" := colorTemperature ]>
                        {[ "entity" := KlikAanKlikUitZigbeeDevice._id self ]} |} ]
  ∧ Forall (λ t, pending (start t) = [0])
      (KlikAanKlikUitZigbeeDevice.turn_on self kwargs enum).2.
Proof.
  intros Hfree Hoff Hb Hc. rewrite zigbee_turn_on_free by done.
  rewrite Hb, Hc. unfold KlikAanKlikUitZigbeeDevice.off_or_unknown.
  destruct Hoff as [-> | ->]; cbn; (split; [reflexivity |]);
    repeat constructor.
Qed.

Lemma zigbee_turn_on_from_off_spawns_three_witness :
  (KlikAanKlikUitZigbeeDevice.turn_on Scenario.Z1
     (<[ ATTR_BRIGHTNESS := 100 ]> {[ ATTR_COLOR_TEMP := 300 ]}) []).2 =
    [ KlikAanKlikUitThread TURN_ON 9
        {| kw_tries := 1; kw_sleep := 1;
           kw_callable_function := BoundMethod 0%nat hub_zigbee_on;
           kw_rest := {[ "entity" := 9 ]} |};
      KlikAanKlikUitThread DIM 9
        {| kw_tries := 1; kw_sleep := 1;
           kw_callable_function := BoundMethod 0%nat hub_zigbee_dim;
           kw_rest := <[ "level" := 100 ]> {[ "entity" := 9 ]} |};
      KlikAanKlikUitThread CHANGE_TEMEPRATURE 9
        {| kw_tries := 1; kw_sleep := 1;
           kw_callable_function := BoundMethod 0%nat hub_zigbee_color_temp;
           kw_rest := <[ "color_temp" := 300 ]> {[ "entity" := 9 ]} |} ]
  ∧ Forall (λ t, pending (start t) = [0])
      (KlikAanKlikUitZigbeeDevice.turn_on Scenario.Z1
         (<[ ATTR_BRIGHTNESS := 100 ]> {[ ATTR_COLOR_TEMP := 300 ]}) []).2.
Proof.
  apply (zigbee_turn_on_from_off_spawns_three Scenario.Z1
           (<[ ATTR_BRIGHTNESS := 100 ]> {[ ATTR_COLOR_TEMP := 300 ]}) [] 100 300).
  - reflexivity.
  - left. reflexivity.
  - reflexivity.
  - reflexivity.
Defined.

(** C10. Every [turn_on] of a Zigbee lamp that is not busy replaces both
    cached values by what the call carries: the value given, or [None] when
    the key is absent.  A call without brightness therefore forgets the
    brightness cached before. *)
Theorem zigbee_turn_on_overwrites_cache
    (self : KlikAanKlikUitZigbeeDevice.t) (kwargs : gmap string Z)
    (enum : list Thread) :
  has_running_threads enum (KlikAanKlikUitZigbeeDevice._id self) = false →
  KlikAanKlikUitZigbeeDevice.brightness
    (KlikAanKlikUitZigbeeDevice.turn_on self kwargs enum).1
    = kwargs !! ATTR_BRIGHTNESS
  ∧ KlikAanKlikUitZigbeeDevice._color_temp
      (KlikAanKlikUitZigbeeDevice.turn_on self kwargs enum).1
    = kwargs !! ATTR_COLOR_TEMP
  ∧ (kwargs !! ATTR_BRIGHTNESS = None →
     KlikAanKlikUitZigbeeDevice.brightness
       (KlikAanKlikUitZigbeeDevice.turn_on self kwargs enum).1 = None).
Proof.
  intros Hfree. rewrite zigbee_turn_on_free by done. cbn.
  split; [done |]. split; done.
Qed.

Lemma zigbee_turn_on_overwrites_cache_witness :
  KlikAanKlikUitZigbeeDevice.brightness Scenario.Z1_on = Some 100
  ∧ KlikAanKlikUitZigbeeDevice.brightness
      (KlikAanKlikUitZigbeeDevice.turn_on Scenario.Z1_on
         {[ ATTR_COLOR_TEMP := 250 ]} []).1 = None
  ∧ KlikAanKlikUitZigbeeDevice._color_temp
      (KlikAanKlikUitZigbeeDevice.turn_on Scenario.Z1_on
         {[ ATTR_COLOR_TEMP := 250 ]} []).1 = Some 250.
Proof.
  destruct (zigbee_turn_on_overwrites_cache Scenario.Z1_on
              {[ ATTR_COLOR_TEMP := 250 ]} []) as (Hb & Hc & Herase);
    [reflexivity |].
  split; [reflexivity |]. split; [apply Herase; reflexivity | exact Hc].
Defined.

(** A thread built by the constructor carries the key it was built with,
    for its own device, and no other. *)
Lemma key_of_new_thread a a' d kw :
  has_key (KlikAanKlikUitThread a d kw) d a' ↔ a = a'.
Proof.
  unfold has_key. cbn. split.
  - by intros [? _]%thread_name_inj.
  - by intros ->.
Qed.

Ltac keys_of_started :=
  repeat match goal with
    | Hin : _ ∈ [] |- _ => by apply elem_of_nil in Hin
    | Hin : _ ∈ _ :: _ |- _ => apply elem_of_cons in Hin as [-> | Hin]
    | Hk : has_key (KlikAanKlikUitThread _ _ _) _ _ |- _ =>
        apply key_of_new_thread in Hk; try discriminate Hk
    | Hs : is_Some None |- _ => by destruct Hs
    end.

(** C7. A Zigbee lamp that is not busy and whose cached state is on sends
    no on-command.  It starts the dim worker exactly when a brightness is
    given and the color-temperature worker exactly when a color temperature
    is given; a call with a color temperature alone starts that one worker
    and nothing else. *)
Theorem zigbee_turn_on_when_on
    (self : KlikAanKlikUitZigbeeDevice.t) (kwargs : gmap string Z)
    (enum started : list Thread) :
  has_running_threads enum (KlikAanKlikUitZigbeeDevice._id self) = false →
  KlikAanKlikUitZigbeeDevice.is_on self = Some true →
  (KlikAanKlikUitZigbeeDevice.turn_on self kwargs enum).2 = started →
  started =
    match kwargs !! ATTR_BRIGHTNESS with
    | Some brightness =>
        [ KlikAanKlikUitThread DIM (KlikAanKlikUitZigbeeDevice._id self)
            {| kw_tries := 1; kw_sleep := 1;
               kw_callable_function :=
                 BoundMethod (KlikAanKlikUitZigbeeDevice._hub self) hub_zigbee_dim;
               kw_rest := <[ "level" := brightness ]>
                            {[ "entity" := KlikAanKlikUitZigbeeDevice._id self ]} |} ]
    | None => []
    end ++
    match kwargs !! ATTR_COLOR_TEMP with
    | Some colorTemperature =>
        [ KlikAanKlikUitThread CHANGE_TEMEPRATURE
            (KlikAanKlikUitZigbeeDevice._id self)
            {| kw_tries := 1; kw_sleep := 1;
               kw_callable_function :=
                 BoundMethod (KlikAanKlikUitZigbeeDevice._hub self)
                   hub_zigbee_color_temp;
               kw_rest := <[ "color_temp" := colorTemperature ]>
                            {[ "entity" := KlikAanKlikUitZigbeeDevice._id self ]} |} ]
    | None => []
    end
  ∧ (∀ t, t ∈ started →
       ¬ has_key t (KlikAanKlikUitZigbeeDevice._id self) TURN_ON)
  ∧ ((∃ t, t ∈ started ∧ has_key t (KlikAanKlikUitZigbeeDevice._id self) DIM)
       ↔ is_Some (kwargs !! ATTR_BRIGHTNESS))
  ∧ ((∃ t, t ∈ started ∧
             has_key t (KlikAanKlikUitZigbeeDevice._id self) CHANGE_TEMEPRATURE)
       ↔ is_Some (kwargs !! ATTR_COLOR_TEMP))
  ∧ (∀ colorTemperature,
       kwargs !! ATTR_BRIGHTNESS = None →
       kwargs !! ATTR_COLOR_TEMP = Some colorTemperature →
       started =
         [ KlikAanKlikUitThread CHANGE_TEMEPRATURE
             (KlikAanKlikUitZigbeeDevice._id self)
             {| kw_tries := 1; kw_sleep := 1;
                kw_callable_function :=
                  BoundMethod (KlikAanKlikUitZigbeeDevice._hub self)
                    hub_zigbee_color_temp;
                kw_rest := <[ "color_temp" := colorTemperature ]>
                             {[ "entity" := KlikAanKlikUitZigbeeDevice._id self ]} |} ]).
Proof.
  intros Hfree Hon <-. rewrite zigbee_turn_on_free by done.
  unfold KlikAanKlikUitZigbeeDevice.off_or_unknown. rewrite Hon.
  unfold KlikAanKlikUitZigbeeDevice.dim_thread,
    KlikAanKlikUitZigbeeDevice.color_temp_thread,
    KlikAanKlikUitZigbeeDevice.job.
  destruct (kwargs !! ATTR_BRIGHTNESS) as [b |],
    (kwargs !! ATTR_COLOR_TEMP) as [c |];
    cbn [snd negb from_option app length];
    repeat split;
    first
      [ intros t Hin Hk; by keys_of_started
      | intros (t & Hin & Hk); keys_of_started; by eauto
      | intros Hs; keys_of_started; eexists;
        (split; [| by apply key_of_new_thread]);
        first [ by apply list_elem_of_here
              | by apply list_elem_of_further, list_elem_of_here ]
      | intros; by simplify_eq ].
Qed.

(** Scenario 3: Z1 is on and is asked for color temperature 250 only. *)
Lemma zigbee_turn_on_when_on_witness :
  (KlikAanKlikUitZigbeeDevice.turn_on Scenario.Z1_on
     {[ ATTR_COLOR_TEMP := 250 ]} []).2 =
    [ KlikAanKlikUitThread CHANGE_TEMEPRATURE 9
        {| kw_tries := 1; kw_sleep := 1;
           kw_callable_function := BoundMethod 0%nat hub_zigbee_color_temp;
           kw_rest := <[ "color_temp" := 250 ]> {[ "entity" := 9 ]} |} ].
Proof.
  destruct (zigbee_turn_on_when_on Scenario.Z1_on {[ ATTR_COLOR_TEMP := 250 ]} []
              (KlikAanKlikUitZigbeeDevice.turn_on Scenario.Z1_on
                 {[ ATTR_COLOR_TEMP := 250 ]} []).2)
    as (_ & _ & _ & _ & Honly); [reflexivity | reflexivity | reflexivity |].
  apply (Honly 250); reflexivity.
Defined.

(** ** Optimistic cached state *)

Lemma dispatch_free_is_on e r (enum : list Thread) :
  has_running_threads enum (entity_id e) = false →
  cached_is_on (dispatch e r enum).1 =
    Some (match r with requestOn _ => true | requestOff => false end).
Proof.
  destruct e as [d | d], r as [kwargs |]; cbn; intros Hfree;
    unfold KlikAanKlikUitDevice.turn_on, KlikAanKlikUitDevice.turn_off,
      KlikAanKlikUitZigbeeDevice.turn_on, KlikAanKlikUitZigbeeDevice.turn_off;
    by rewrite Hfree.
Qed.

Section system_properties.
Context {H : Type}.
Variable call : Callable → gmap string Z → H → Py.outcome unit * H.

(** Whatever a worker does, returning or raising, the entities are not
    among the things it can reach. *)
Lemma worker_step_entities (w1 w2 : World H) :
  worker_step call w1 w2 → entities w2 = entities w1.
Proof. by inversion 1. Qed.

Lemma worker_steps_entities (w1 w2 : World H) :
  rtc (worker_step call) w1 w2 → entities w2 = entities w1.
Proof.
  induction 1 as [w | w1 w2 w3 Hstep _ IH]; [done |].
  rewrite IH. by apply worker_step_entities.
Qed.

(** A worker left to itself does what [repeat] does: it ends, normally or
    on the exception, in the run state [repeat_loop] computes for the
    indices it had left. *)
Lemma worker_runs_repeat_loop es (t : Thread) : ∀ (p : list Z) (σ σ' : run_state H) r,
  repeat_loop call (kw_tries (thread_kwargs t)) (kw_sleep (thread_kwargs t))
    (kw_callable_function (thread_kwargs t)) (kw_rest (thread_kwargs t)) p σ
    = (r, σ') →
  rtc (worker_step call) (mkWorld es [mkWorker t p] σ) (mkWorld es [] σ').
Proof.
  induction p as [| i rest IH]; intros σ σ' r Hloop.
  - cbn in Hloop. unfold Py.ret in Hloop. injection Hloop as _ <-.
    apply rtc_once.
    exact (worker_exits call (mkWorld es [mkWorker t []] σ) 0 (mkWorker t [])
             eq_refl eq_refl).
  - cbn [repeat_loop] in Hloop. unfold Py.bind at 1 in Hloop.
    destruct (attempt call _ _ _ _ i σ) as [[[] | e] σ1] eqn:Hatt.
    + eapply rtc_l; [| by eapply IH].
      exact (worker_iterates call (mkWorld es [mkWorker t (i :: rest)] σ) 0
               (mkWorker t (i :: rest)) i rest σ1 eq_refl eq_refl Hatt).
    + injection Hloop as _ <-. apply rtc_once.
      exact (worker_raises call (mkWorld es [mkWorker t (i :: rest)] σ) 0
               (mkWorker t (i :: rest)) i rest e σ1 eq_refl eq_refl Hatt).
Qed.

Lemma started_worker_runs_repeat es (t : Thread) (σ σ' : run_state H) r :
  repeat call (kw_tries (thread_kwargs t)) (kw_sleep (thread_kwargs t))
    (kw_callable_function (thread_kwargs t)) (kw_rest (thread_kwargs t)) σ
    = (r, σ') →
  rtc (worker_step call) (mkWorld es [start t] σ) (mkWorld es [] σ').
Proof. apply worker_runs_repeat_loop. Qed.

End system_properties.

(** C5. When the guard lets a request through, the cached state is already
    on (after [turn_on]) or off (after [turn_off]) in the entity the method
    returns.  Workers cannot change it afterwards: no step of any worker,
    one that raises included, alters any entity, so the cached state stays
    as the request left it however the started workers fare. *)
Theorem cached_state_is_optimistic {H : Type}
    (call : Callable → gmap string Z → H → Py.outcome unit * H)
    (w : World H) (n : nat) (e e' : Entity) (r : Request)
    (started : list Thread) :
  entities w !! n = Some e →
  has_running_threads (enumerate w) (entity_id e) = false →
  dispatch e r (enumerate w) = (e', started) →
  cached_is_on e' =
    Some (match r with requestOn _ => true | requestOff => false end)
  ∧ (∀ w1 w2, worker_step call w1 w2 → entities w2 = entities w1)
  ∧ (∀ w', rtc (worker_step call) (after_request w n e' started) w' →
       entities w' !! n = Some e').
Proof.
  intros Hn Hfree Hcall. split; [| split].
  - pose proof (dispatch_free_is_on e r (enumerate w) Hfree) as Hon.
    by rewrite Hcall in Hon.
  - apply worker_step_entities.
  - intros w' Hrun. rewrite (worker_steps_entities call _ _ Hrun). cbn.
    apply list_lookup_insert_eq. by eapply lookup_lt_Some.
Qed.

(** D1 is switched on through a hub whose every command fails. *)
Lemma cached_state_is_optimistic_witness :
  cached_is_on
    (Standard (KlikAanKlikUitDevice.set_state
                 (KlikAanKlikUitDevice.set_brightness Scenario.D1 (Some 85))
                 (Some true))) = Some true
  ∧ (∀ w1 w2, worker_step Scenario.failing_hub w1 w2 →
       entities w2 = entities w1)
  ∧ (∀ w',
       rtc (worker_step Scenario.failing_hub)
         (after_request (mkWorld [Standard Scenario.D1] [] Scenario.idle) 0
            (Standard (KlikAanKlikUitDevice.set_state
                         (KlikAanKlikUitDevice.set_brightness Scenario.D1 (Some 85))
                         (Some true)))
            [Scenario.D1_turning_on]) w' →
       entities w' !! 0%nat =
         Some (Standard (KlikAanKlikUitDevice.set_state
                           (KlikAanKlikUitDevice.set_brightness Scenario.D1 (Some 85))
                           (Some true)))).
Proof.
  apply (cached_state_is_optimistic Scenario.failing_hub
           (mkWorld [Standard Scenario.D1] [] Scenario.idle) 0
           (Standard Scenario.D1) _ (requestOn {[ ATTR_BRIGHTNESS := 85 ]})
           [Scenario.D1_turning_on]).
  - reflexivity.
  - reflexivity.
  - reflexivity.
Defined.

(** The turn-on worker of that request dies on its first send, and D1 is
    still reported on. *)
Example failed_worker_leaves_cache :
  worker_step Scenario.failing_hub
    (mkWorld [Standard Scenario.D1_on] [start Scenario.D1_turning_on] Scenario.idle)
    (mkWorld [Standard Scenario.D1_on] []
       (mkRun 0%nat [Invoke (BoundMethod 0%nat hub_turn_on) {[ "entity" := 7 ]}])).
Proof.
  exact (worker_raises Scenario.failing_hub
           (mkWorld [Standard Scenario.D1_on] [start Scenario.D1_turning_on]
              Scenario.idle)
           0 (start Scenario.D1_turning_on) 0 [1; 2] Py.HubError _
           eq_refl eq_refl eq_refl).
Qed.

(** * Further properties of the module *)

(** ** Thread names *)

(** X1. The thread name is a faithful key: two threads built by
    [KlikAanKlikUitThread] have the same name only if they were built for
    the same action and the same device id. *)
Theorem thread_names_identify_keys a a' d d' kw kw' :
  name (KlikAanKlikUitThread a d kw) = name (KlikAanKlikUitThread a' d' kw') ↔
  a = a' ∧ d = d'.
Proof.
  cbn. split.
  - apply thread_name_inj.
  - by intros [-> ->].
Qed.

Lemma string_length_app (s1 s2 : string) :
  String.length (s1 +:+ s2) = (String.length s1 + String.length s2)%nat.
Proof. induction s1 as [| c s1 IH]; simpl; [done | by f_equal]. Qed.

Lemma thread_name_length a d :
  String.length (thread_name a d) =
    (4 + String.length (value a) + String.length (pretty d))%nat.
Proof.
  unfold thread_name. rewrite !string_length_app. cbn. lia.
Qed.

(** X2. The source notes that a thread name may be 15 characters at most.
    The name of a change-temperature thread is longer than that for every
    device id: its fixed part alone has 22 characters. *)
Theorem change_temperature_name_too_long d :
  (22 ≤ String.length (thread_name CHANGE_TEMEPRATURE d))%nat
  ∧ ¬ (String.length (thread_name CHANGE_TEMEPRATURE d) ≤ 15)%nat.
Proof.
  rewrite thread_name_length. cbn [value]. cbn. lia.
Qed.

(** ** The retry loop at its edges *)

Section retry_edges.
Context {H : Type}.
Variable call : Callable → gmap string Z → H → Py.outcome unit * H.
Variables (N S : Z) (f : Callable) (kw : gmap string Z).

Lemma attempt_raises i σ e :
  (call f kw (hub_st σ)).1 = Py.Raised e →
  attempt call N S f kw i σ =
    (Py.Raised e, mkRun (next_hub call f kw (hub_st σ)) (trace σ ++ [Invoke f kw])).
Proof.
  intros Hr. unfold attempt, Py.bind, invoke, next_hub.
  destruct (call f kw (hub_st σ)) as [r h']. cbn in Hr. by subst r.
Qed.

Lemma attempt_sleeps i σ :
  (call f kw (hub_st σ)).1 = Py.Returned tt →
  0 ≤ S →
  attempt call N S f kw i σ =
    (Py.Returned tt,
     mkRun (next_hub call f kw (hub_st σ))
       (trace σ ++ [Invoke f kw; Sleep (if decide (i ≠ N - 1) then S else 0)])).
Proof.
  intros Hr HS. unfold attempt, Py.bind, invoke, time_sleep, next_hub.
  destruct (call f kw (hub_st σ)) as [r h']. cbn in Hr. subst r. cbn.
  destruct (decide (i ≠ N - 1)); (destruct (decide _); [lia |]);
    by rewrite <- app_assoc.
Qed.

(** The last index never sleeps for [S], whatever [S] is. *)
Lemma attempt_last σ :
  (call f kw (hub_st σ)).1 = Py.Returned tt →
  attempt call N S f kw (N - 1) σ =
    (Py.Returned tt,
     mkRun (next_hub call f kw (hub_st σ)) (trace σ ++ [Invoke f kw; Sleep 0])).
Proof.
  intros Hr. unfold attempt, Py.bind, invoke, time_sleep, next_hub.
  destruct (call f kw (hub_st σ)) as [r h']. cbn in Hr. subst r. cbn.
  destruct (decide (N - 1 ≠ N - 1)) as [Hne | _]; [by destruct Hne |].
  rewrite decide_False by lia. by rewrite <- app_assoc.
Qed.

(** Whatever happens, one iteration logs exactly one send. *)
Lemma attempt_logs_one_send i σ :
  ∃ new, trace (attempt call N S f kw i σ).2 = trace σ ++ new
         ∧ invocations new = 1%nat.
Proof.
  unfold attempt, Py.bind, invoke, time_sleep.
  destruct (call f kw (hub_st σ)) as [[[] | e] h']; cbn.
  - destruct (decide _); cbn.
    + by exists [Invoke f kw].
    + exists [Invoke f kw; Sleep (if decide (i ≠ N - 1) then S else 0)].
      by rewrite <- app_assoc.
  - by exists [Invoke f kw].
Qed.

Lemma repeat_loop_logs_at_most indices : ∀ σ,
  ∃ new, trace (repeat_loop call N S f kw indices σ).2 = trace σ ++ new
         ∧ (invocations new ≤ length indices)%nat.
Proof.
  induction indices as [| i rest IH]; intros σ.
  - exists []. cbn. by rewrite app_nil_r.
  - cbn [repeat_loop]. unfold Py.bind at 1.
    destruct (attempt_logs_one_send i σ) as (new1 & Htr1 & Hn1).
    destruct (attempt call N S f kw i σ) as [[[] | e] σ1]; cbn [snd] in *.
    + destruct (IH σ1) as (new2 & Htr2 & Hn2).
      exists (new1 ++ new2). rewrite Htr2, Htr1, app_assoc.
      split; [done |]. rewrite invocations_app. cbn [length]. lia.
    + exists new1. split; [done |]. cbn [length]. lia.
Qed.

Lemma repeat_loop_stops_at_error (k : nat) e : ∀ (n : nat) j σ,
  0 ≤ S →
  (k < n)%nat →
  j + Z.of_nat n = N →
  (∀ i, (i < k)%nat →
        (call f kw (Nat.iter i (next_hub call f kw) (hub_st σ))).1 = Py.Returned tt) →
  (call f kw (Nat.iter k (next_hub call f kw) (hub_st σ))).1 = Py.Raised e →
  repeat_loop call N S f kw (seqZ j (Z.of_nat n)) σ =
    (Py.Raised e,
     mkRun (Nat.iter (Datatypes.S k) (next_hub call f kw) (hub_st σ))
       (trace σ ++ mjoin (replicate k [Invoke f kw; Sleep S]) ++ [Invoke f kw])).
Proof.
  induction k as [| k IH]; intros n j σ HS Hkn Hj Hok Hraise.
  - rewrite seqZ_cons by lia. cbn [repeat_loop]. unfold Py.bind at 1.
    rewrite (attempt_raises j σ e) by done. done.
  - rewrite seqZ_cons by lia. cbn [repeat_loop]. unfold Py.bind at 1.
    rewrite attempt_sleeps; [| exact (Hok 0%nat ltac:(lia)) | done].
    rewrite decide_True by lia.
    replace (Z.pred (Z.of_nat n)) with (Z.of_nat (Nat.pred n)) by lia.
    rewrite (IH (Nat.pred n) (Z.succ j)); [| done | lia | lia | |].
    + cbn [hub_st trace]. rewrite <- (Nat.iter_succ_r _ (next_hub call f kw)).
      f_equal. f_equal.
      change (mjoin (replicate (Datatypes.S k) [Invoke f kw; Sleep S]))
        with ([Invoke f kw; Sleep S] ++ mjoin (replicate k [Invoke f kw; Sleep S])).
      by rewrite <- !app_assoc.
    + intros i Hi. cbn [hub_st]. rewrite <- Nat.iter_succ_r.
      apply Hok. lia.
    + cbn [hub_st]. by rewrite <- Nat.iter_succ_r.
Qed.

End retry_edges.

Lemma standard_started_policy self r (enum : list Thread) t :
  t ∈ (dispatch (Standard self) r enum).2 →
  kw_tries (thread_kwargs t) = KlikAanKlikUitDevice.tries self
  ∧ kw_sleep (thread_kwargs t) = KlikAanKlikUitDevice.sleep self.
Proof.
  destruct r as [kwargs |]; cbn;
    unfold KlikAanKlikUitDevice.turn_on, KlikAanKlikUitDevice.turn_off;
    destruct (has_running_threads enum _); cbn;
    try destruct (KlikAanKlikUitDevice.off_or_unknown _);
    intros Hin; keys_of_started; done.
Qed.

Lemma zigbee_started_policy self r (enum : list Thread) t :
  t ∈ (dispatch (Zigbee self) r enum).2 →
  kw_tries (thread_kwargs t) = 1 ∧ kw_sleep (thread_kwargs t) = 1.
Proof.
  destruct r as [kwargs |]; cbn;
    unfold KlikAanKlikUitZigbeeDevice.turn_on, KlikAanKlikUitZigbeeDevice.turn_off;
    destruct (has_running_threads enum _); cbn;
    unfold KlikAanKlikUitZigbeeDevice.start_dim,
      KlikAanKlikUitZigbeeDevice.start_color_temp; cbn;
    try destruct (KlikAanKlikUitZigbeeDevice.off_or_unknown _);
    try destruct (kwargs !! ATTR_BRIGHTNESS);
    try destruct (kwargs !! ATTR_COLOR_TEMP); cbn;
    intros Hin; keys_of_started; done.
Qed.

(** X3. The schema lets [tries] be 0.  A standard entity with no tries to
    spend still answers a request that the guard lets through: it starts its
    thread and flips the cached state, but the thread returns without a
    single send or sleep, whatever the hub would have done. *)
Theorem zero_tries_sends_nothing {H : Type}
    (call : Callable → gmap string Z → H → Py.outcome unit * H)
    (self : KlikAanKlikUitDevice.t) (r : Request) (enum : list Thread) :
  KlikAanKlikUitDevice.tries self ≤ 0 →
  has_running_threads enum (KlikAanKlikUitDevice._id self) = false →
  length (dispatch (Standard self) r enum).2 = 1%nat
  ∧ cached_is_on (dispatch (Standard self) r enum).1 =
      Some (match r with requestOn _ => true | requestOff => false end)
  ∧ ∀ t σ, t ∈ (dispatch (Standard self) r enum).2 →
      thread_run call t σ = (Py.Returned tt, σ).
Proof.
  intros Hzero Hfree. split; [| split].
  - destruct r as [kwargs |]; cbn;
      unfold KlikAanKlikUitDevice.turn_on, KlikAanKlikUitDevice.turn_off;
      rewrite Hfree; cbn; [by destruct (KlikAanKlikUitDevice.off_or_unknown _) | done].
  - by apply (dispatch_free_is_on (Standard self)).
  - intros t σ Hin. apply standard_started_policy in Hin as [Htries _].
    unfold thread_run, repeat, Py.range0. rewrite Htries.
    rewrite seqZ_nil by lia. reflexivity.
Qed.

Lemma zero_tries_sends_nothing_witness :
  length (dispatch (Standard (KlikAanKlikUitDevice.init "D0" 4 0%nat 0 3))
            (requestOn ∅) []).2 = 1%nat
  ∧ cached_is_on (dispatch (Standard (KlikAanKlikUitDevice.init "D0" 4 0%nat 0 3))
                    (requestOn ∅) []).1 = Some true
  ∧ ∀ t σ,
      t ∈ (dispatch (Standard (KlikAanKlikUitDevice.init "D0" 4 0%nat 0 3))
             (requestOn ∅) []).2 →
      thread_run Scenario.reliable_hub t σ = (Py.Returned tt, σ).
Proof.
  apply (zero_tries_sends_nothing Scenario.reliable_hub
           (KlikAanKlikUitDevice.init "D0" 4 0%nat 0 3) (requestOn ∅) []).
  - cbn. lia.
  - reflexivity.
Defined.

(** X4. An exception raised by the command ends the loop where it happens.
    If the first [k] sends return and the next one raises, with [k] below
    [tries], then [repeat] raises that exception after exactly [k + 1] sends
    and [k] sleeps of [S] seconds; the tries that remain are not used. *)
Theorem repeat_stops_at_first_error {H : Type}
    (call : Callable → gmap string Z → H → Py.outcome unit * H)
    (N S : Z) (action : Callable) (params : gmap string Z)
    (σ : run_state H) (k : nat) (e : Py.exn) :
  0 ≤ S →
  Z.of_nat k < N →
  (∀ i, (i < k)%nat →
     (call action params
        (Nat.iter i (next_hub call action params) (hub_st σ))).1 = Py.Returned tt) →
  (call action params
     (Nat.iter k (next_hub call action params) (hub_st σ))).1 = Py.Raised e →
  repeat call N S action params σ =
    (Py.Raised e,
     mkRun (Nat.iter (Datatypes.S k) (next_hub call action params) (hub_st σ))
       (trace σ
          ++ mjoin (replicate k [Invoke action params; Sleep S])
          ++ [Invoke action params])).
Proof.
  intros HS Hk Hok Hraise. unfold repeat, Py.range0.
  rewrite <- (Z2Nat.id N) at 2 by lia.
  apply repeat_loop_stops_at_error; [done | lia | lia | done | done].
Qed.

Lemma repeat_stops_at_first_error_witness :
  repeat Scenario.flaky_hub 5 3 (BoundMethod 0%nat hub_turn_on)
    {[ "entity" := 7 ]} Scenario.idle =
    (Py.Raised Py.HubError,
     mkRun
       (Nat.iter 3
          (next_hub Scenario.flaky_hub (BoundMethod 0%nat hub_turn_on)
             {[ "entity" := 7 ]}) (hub_st Scenario.idle))
       (trace Scenario.idle
          ++ mjoin (replicate 2
                      [Invoke (BoundMethod 0%nat hub_turn_on) {[ "entity" := 7 ]};
                       Sleep 3])
          ++ [Invoke (BoundMethod 0%nat hub_turn_on) {[ "entity" := 7 ]}])).
Proof.
  apply (repeat_stops_at_first_error Scenario.flaky_hub 5 3
           (BoundMethod 0%nat hub_turn_on) {[ "entity" := 7 ]}
           Scenario.idle 2 Py.HubError).
  - lia.
  - lia.
  - intros [| [| i]] Hi; [reflexivity | reflexivity | lia].
  - reflexivity.
Defined.

(** X5. Whatever the hub does and however the loop ends, [repeat] only adds
    to the log, and what it adds holds at most [tries] sends (none when
    [tries] is zero or negative). *)
Theorem repeat_never_exceeds_tries {H : Type}
    (call : Callable → gmap string Z → H → Py.outcome unit * H)
    (N S : Z) (action : Callable) (params : gmap string Z) (σ : run_state H) :
  ∃ new,
    trace (repeat call N S action params σ).2 = trace σ ++ new
    ∧ (invocations new ≤ Z.to_nat N)%nat
    ∧ invocations (trace (repeat call N S action params σ).2)
      = (invocations (trace σ) + invocations new)%nat.
Proof.
  destruct (repeat_loop_logs_at_most call N S action params (Py.range0 N) σ)
    as (new & Htr & Hn).
  exists new. unfold repeat. rewrite Htr.
  split; [done |]. split; [| apply invocations_app].
  unfold Py.range0 in Hn. by rewrite length_seqZ in Hn.
Qed.

(** X6. A Zigbee worker makes one attempt and never delays: any thread
    started by a Zigbee entity, run against a hub that accepts the command,
    sends it once and then only calls [time.sleep(0)]. *)
Theorem zigbee_worker_sends_once {H : Type}
    (call : Callable → gmap string Z → H → Py.outcome unit * H)
    (self : KlikAanKlikUitZigbeeDevice.t) (r : Request) (enum : list Thread)
    (t : Thread) (σ : run_state H) :
  t ∈ (dispatch (Zigbee self) r enum).2 →
  (call (kw_callable_function (thread_kwargs t)) (kw_rest (thread_kwargs t))
     (hub_st σ)).1 = Py.Returned tt →
  thread_run call t σ =
    (Py.Returned tt,
     mkRun (next_hub call (kw_callable_function (thread_kwargs t))
              (kw_rest (thread_kwargs t)) (hub_st σ))
       (trace σ ++ [ Invoke (kw_callable_function (thread_kwargs t))
                       (kw_rest (thread_kwargs t));
                     Sleep 0 ])).
Proof.
  intros Hin Hok. apply zigbee_started_policy in Hin as [Htries Hsleep].
  unfold thread_run, repeat, Py.range0. rewrite Htries, Hsleep.
  change (seqZ 0 1) with [0]. cbn [repeat_loop]. unfold Py.bind at 1.
  change 0 with (1 - 1) at 1.
  rewrite attempt_last by done. reflexivity.
Qed.

Lemma zigbee_worker_sends_once_witness :
  thread_run Scenario.reliable_hub Scenario.Z1_changing_temperature Scenario.idle =
    (Py.Returned tt,
     mkRun
       (next_hub Scenario.reliable_hub
          (kw_callable_function (thread_kwargs Scenario.Z1_changing_temperature))
          (kw_rest (thread_kwargs Scenario.Z1_changing_temperature))
          (hub_st Scenario.idle))
       (trace Scenario.idle
          ++ [ Invoke
                 (kw_callable_function (thread_kwargs Scenario.Z1_changing_temperature))
                 (kw_rest (thread_kwargs Scenario.Z1_changing_temperature));
               Sleep 0 ])).
Proof.
  apply (zigbee_worker_sends_once Scenario.reliable_hub Scenario.Z1_on
           (requestOn {[ ATTR_COLOR_TEMP := 250 ]}) []).
  - apply list_elem_of_here.
  - reflexivity.
Defined.

(** ** Requests, keys and the guard *)

Ltac unfold_methods :=
  unfold KlikAanKlikUitDevice.turn_on, KlikAanKlikUitDevice.turn_off,
    KlikAanKlikUitZigbeeDevice.turn_on, KlikAanKlikUitZigbeeDevice.turn_off,
    KlikAanKlikUitZigbeeDevice.start_dim,
    KlikAanKlikUitZigbeeDevice.start_color_temp,
    KlikAanKlikUitZigbeeDevice.on_thread,
    KlikAanKlikUitZigbeeDevice.dim_thread,
    KlikAanKlikUitZigbeeDevice.color_temp_thread.

Lemma dispatch_entity_id e r (enum : list Thread) :
  entity_id (dispatch e r enum).1 = entity_id e.
Proof.
  destruct e as [d | d], r as [kwargs |]; cbn; unfold_methods;
    by destruct (has_running_threads enum _).
Qed.

(** Every thread a method starts is named for the entity's own id. *)
Lemma dispatch_started_keys e r (enum : list Thread) t :
  t ∈ (dispatch e r enum).2 → ∃ a, has_key t (entity_id e) a.
Proof.
  destruct e as [d | d], r as [kwargs |]; cbn; unfold_methods;
    destruct (has_running_threads enum _); cbn;
    try destruct (KlikAanKlikUitDevice.off_or_unknown _);
    try destruct (KlikAanKlikUitZigbeeDevice.off_or_unknown _);
    try destruct (kwargs !! ATTR_BRIGHTNESS);
    try destruct (kwargs !! ATTR_COLOR_TEMP); cbn;
    intros Hin; keys_of_started; by eexists.
Qed.

Lemma has_running_threads_app (l1 l2 : list Thread) d :
  has_running_threads (l1 ++ l2) d =
    has_running_threads l1 d || has_running_threads l2 d.
Proof.
  induction l1 as [| t l1 IH]; [done |].
  unfold has_running_threads in *. cbn [app]. rewrite !filter_cons.
  destruct (decide _); [done | exact IH].
Qed.

Lemma has_running_threads_other_device (started : list Thread) d d' :
  d ≠ d' →
  (∀ t, t ∈ started → ∃ a, has_key t d' a) →
  has_running_threads started d = false.
Proof.
  intros Hne Hkeys. apply has_running_threads_false. intros t Hin Hg.
  destruct (Hkeys t Hin) as [a Hk].
  destruct Hg as [Hg | [Hg | Hg]];
    by destruct (has_key_unique _ _ _ _ _ Hk Hg) as [? _].
Qed.

(** X7. Requests never cross devices.  The threads a request starts are all
    named for the entity's own id, so they leave the guard of every other
    device as it was, and a request for another device is handled exactly as
    if they were not there. *)
Theorem requests_do_not_cross_devices
    (e : Entity) (r : Request) (enum : list Thread) :
  (∀ t, t ∈ (dispatch e r enum).2 → ∃ a, has_key t (entity_id e) a)
  ∧ (∀ d, d ≠ entity_id e →
       has_running_threads (enum ++ (dispatch e r enum).2) d
       = has_running_threads enum d)
  ∧ (∀ e' r', entity_id e' ≠ entity_id e →
       dispatch e' r' (enum ++ (dispatch e r enum).2) = dispatch e' r' enum).
Proof.
  assert (∀ d, d ≠ entity_id e →
            has_running_threads (enum ++ (dispatch e r enum).2) d
            = has_running_threads enum d) as Hother.
  { intros d Hne. rewrite has_running_threads_app.
    rewrite (has_running_threads_other_device (dispatch e r enum).2 d
               (entity_id e) Hne) by apply dispatch_started_keys.
    apply orb_false_r. }
  split; [apply dispatch_started_keys |]. split; [done |].
  intros e' r' Hne. apply dispatch_guard. by apply Hother.
Qed.

(** X8. [turn_off] never touches the cached levels: for both classes, busy
    or not, brightness and color temperature read the same after the call
    as before, and the only thread it may start is the one keyed
    (device, off). *)
Theorem turn_off_keeps_levels (e : Entity) (enum : list Thread) :
  cached_brightness (dispatch e requestOff enum).1 = cached_brightness e
  ∧ cached_color_temp (dispatch e requestOff enum).1 = cached_color_temp e
  ∧ (length (dispatch e requestOff enum).2 ≤ 1)%nat
  ∧ (∀ t, t ∈ (dispatch e requestOff enum).2 → has_key t (entity_id e) TURN_OFF).
Proof.
  destruct e as [d | d]; cbn; unfold_methods;
    destruct (has_running_threads enum _); cbn;
    (repeat split; [lia |]); intros t Hin; keys_of_started; reflexivity.
Qed.

Lemma standard_started_guarded self r (enum : list Thread) :
  has_running_threads enum (KlikAanKlikUitDevice._id self) = false →
  has_running_threads (dispatch (Standard self) r enum).2
    (KlikAanKlikUitDevice._id self) = true.
Proof.
  intros Hfree. apply has_running_threads_spec.
  destruct r as [kwargs |]; cbn; unfold_methods; rewrite Hfree; cbn;
    try destruct (KlikAanKlikUitDevice.off_or_unknown _);
    eexists; (split; [apply list_elem_of_here |]); unfold guarded;
    rewrite !key_of_new_thread; auto.
Qed.

(** X9. An admitted request makes a standard device busy.  With the thread
    it started added to the live ones the guard answers true, so any
    request that follows while that thread is alive is dropped and leaves
    the entity as the first request left it. *)
Theorem standard_request_makes_busy
    (self : KlikAanKlikUitDevice.t) (r r' : Request) (enum : list Thread) :
  has_running_threads enum (KlikAanKlikUitDevice._id self) = false →
  has_running_threads (enum ++ (dispatch (Standard self) r enum).2)
    (KlikAanKlikUitDevice._id self) = true
  ∧ dispatch (dispatch (Standard self) r enum).1 r'
      (enum ++ (dispatch (Standard self) r enum).2)
    = ((dispatch (Standard self) r enum).1, []).
Proof.
  intros Hfree.
  assert (has_running_threads (enum ++ (dispatch (Standard self) r enum).2)
            (KlikAanKlikUitDevice._id self) = true) as Hbusy.
  { rewrite has_running_threads_app, standard_started_guarded by done.
    apply orb_true_r. }
  split; [done |]. apply dispatch_busy.
  by rewrite (dispatch_entity_id (Standard self)).
Qed.

Lemma standard_request_makes_busy_witness :
  has_running_threads
    ([] ++ (dispatch (Standard Scenario.D1) (requestOn {[ ATTR_BRIGHTNESS := 85 ]})
              []).2) (KlikAanKlikUitDevice._id Scenario.D1) = true
  ∧ dispatch
      (dispatch (Standard Scenario.D1) (requestOn {[ ATTR_BRIGHTNESS := 85 ]}) []).1
      requestOff
      ([] ++ (dispatch (Standard Scenario.D1)
                (requestOn {[ ATTR_BRIGHTNESS := 85 ]}) []).2)
    = ((dispatch (Standard Scenario.D1)
          (requestOn {[ ATTR_BRIGHTNESS := 85 ]}) []).1, []).
Proof.
  apply (standard_request_makes_busy Scenario.D1
           (requestOn {[ ATTR_BRIGHTNESS := 85 ]}) requestOff []).
  reflexivity.
Defined.

(** X10. For a Zigbee lamp an admitted [turn_on] makes the device busy
    exactly when it sends the on-command or a brightness: a call that only
    changes the color temperature of a lamp that is on leaves the guard
    open. *)
Theorem zigbee_turn_on_busy_iff
    (self : KlikAanKlikUitZigbeeDevice.t) (kwargs : gmap string Z)
    (enum : list Thread) :
  has_running_threads enum (KlikAanKlikUitZigbeeDevice._id self) = false →
  has_running_threads
    (enum ++ (KlikAanKlikUitZigbeeDevice.turn_on self kwargs enum).2)
    (KlikAanKlikUitZigbeeDevice._id self) = true
  ↔ KlikAanKlikUitZigbeeDevice.off_or_unknown self = true
    ∨ is_Some (kwargs !! ATTR_BRIGHTNESS).
Proof.
  intros Hfree. rewrite has_running_threads_app, Hfree, orb_false_l.
  rewrite zigbee_turn_on_free by done. cbn [snd].
  unfold KlikAanKlikUitZigbeeDevice.on_thread,
    KlikAanKlikUitZigbeeDevice.dim_thread,
    KlikAanKlikUitZigbeeDevice.color_temp_thread.
  destruct (KlikAanKlikUitZigbeeDevice.off_or_unknown self),
    (kwargs !! ATTR_BRIGHTNESS) as [b |], (kwargs !! ATTR_COLOR_TEMP) as [c |];
    cbn [from_option app]; split.
  all: first
    [ intros _; first [ by left | by right; eexists ]
    | intros _; apply has_running_threads_spec; eexists;
      (split; [apply list_elem_of_here |]); unfold guarded;
      rewrite !key_of_new_thread; by auto
    | intros (t & Hin & [Hk | [Hk | Hk]])%has_running_threads_spec;
      by keys_of_started
    | intros [Hoff | [? Hsome]]; discriminate ].
Qed.

Lemma zigbee_turn_on_busy_iff_witness :
  has_running_threads
    ([] ++ (KlikAanKlikUitZigbeeDevice.turn_on Scenario.Z1
              {[ ATTR_COLOR_TEMP := 300 ]} []).2)
    (KlikAanKlikUitZigbeeDevice._id Scenario.Z1) = true
  ↔ KlikAanKlikUitZigbeeDevice.off_or_unknown Scenario.Z1 = true
    ∨ is_Some (({[ ATTR_COLOR_TEMP := 300 ]} : gmap string Z) !! ATTR_BRIGHTNESS).
Proof.
  apply (zigbee_turn_on_busy_iff Scenario.Z1 {[ ATTR_COLOR_TEMP := 300 ]} []).
  reflexivity.
Defined.

(** X11. Color-temperature requests pile up.  A lamp that is on and is
    asked for a color temperature alone starts the one change-temperature
    thread; asked again while that thread is still alive it starts a second
    one with the same name, so two threads with the key
    (device, change_temperature) are live together. *)
Theorem color_temperature_requests_pile_up
    (self self1 : KlikAanKlikUitZigbeeDevice.t) (kwargs : gmap string Z)
    (enum started1 : list Thread) (colorTemperature : Z) :
  has_running_threads enum (KlikAanKlikUitZigbeeDevice._id self) = false →
  KlikAanKlikUitZigbeeDevice.is_on self = Some true →
  kwargs !! ATTR_BRIGHTNESS = None →
  kwargs !! ATTR_COLOR_TEMP = Some colorTemperature →
  KlikAanKlikUitZigbeeDevice.turn_on self kwargs enum = (self1, started1) →
  started1 =
    [ KlikAanKlikUitThread CHANGE_TEMEPRATURE (KlikAanKlikUitZigbeeDevice._id self)
        {| kw_tries := 1; kw_sleep := 1;
           kw_callable_function :=
             BoundMethod (KlikAanKlikUitZigbeeDevice._hub self)
               hub_zigbee_color_temp;
           kw_rest := <[ "color_temp" := colorTemperature ]>
                        {[ "entity" := KlikAanKlikUitZigbeeDevice._id self ]} |} ]
  ∧ KlikAanKlikUitZigbeeDevice.turn_on self1 kwargs (enum ++ started1)
    = (self1, started1)
  ∧ (2 ≤ live_with_key (enum ++ started1 ++ started1)
           (KlikAanKlikUitZigbeeDevice._id self) CHANGE_TEMEPRATURE)%nat.
Proof.
  intros Hfree Hon Hb Hc Hcall.
  rewrite zigbee_turn_on_free in Hcall by done.
  unfold KlikAanKlikUitZigbeeDevice.off_or_unknown in Hcall.
  rewrite Hon, Hb, Hc in Hcall. cbn in Hcall.
  injection Hcall as <- <-.
  split; [reflexivity |]. split.
  - rewrite zigbee_turn_on_free.
    + cbn. rewrite Hb, Hc. reflexivity.
    + cbn [KlikAanKlikUitZigbeeDevice._id].
      rewrite has_running_threads_app, Hfree, orb_false_l.
      apply has_running_threads_false.
      intros t Hin [Hk | [Hk | Hk]]; by keys_of_started.
  - unfold live_with_key. rewrite !filter_app, !length_app.
    rewrite filter_cons_True by by apply key_of_new_thread.
    cbn [length]. lia.
Qed.

Lemma color_temperature_requests_pile_up_witness :
  [Scenario.Z1_changing_temperature] =
    [ KlikAanKlikUitThread CHANGE_TEMEPRATURE 9
        {| kw_tries := 1; kw_sleep := 1;
           kw_callable_function := BoundMethod 0%nat hub_zigbee_color_temp;
           kw_rest := <[ "color_temp" := 250 ]> {[ "entity" := 9 ]} |} ]
  ∧ KlikAanKlikUitZigbeeDevice.turn_on
      (KlikAanKlikUitZigbeeDevice.turn_on Scenario.Z1_on
         {[ ATTR_COLOR_TEMP := 250 ]} []).1
      {[ ATTR_COLOR_TEMP := 250 ]} ([] ++ [Scenario.Z1_changing_temperature])
    = ((KlikAanKlikUitZigbeeDevice.turn_on Scenario.Z1_on
          {[ ATTR_COLOR_TEMP := 250 ]} []).1,
       [Scenario.Z1_changing_temperature])
  ∧ (2 ≤ live_with_key
           ([] ++ [Scenario.Z1_changing_temperature]
               ++ [Scenario.Z1_changing_temperature])
           9 CHANGE_TEMEPRATURE)%nat.
Proof.
  apply (color_temperature_requests_pile_up Scenario.Z1_on _
           {[ ATTR_COLOR_TEMP := 250 ]} [] _ 250).
  - reflexivity.
  - reflexivity.
  - reflexivity.
  - reflexivity.
  - reflexivity.
Defined.

(** X12. The brightness that comes with the switching-on call is never
    sent by that call; it takes a second call.  Of two admitted [turn_on]
    calls in a row on a standard device the second always starts the dim
    worker, at the level of its own brightness, whatever the state was
    before; and the first admitted [turn_on] after a [turn_off] always
    starts the turn-on worker, whatever brightness it carries. *)
Theorem standard_turn_on_sequence
    (self : KlikAanKlikUitDevice.t) (kwargs1 kwargs2 : gmap string Z)
    (enum1 enum2 : list Thread) :
  has_running_threads enum1 (KlikAanKlikUitDevice._id self) = false →
  has_running_threads enum2 (KlikAanKlikUitDevice._id self) = false →
  (KlikAanKlikUitDevice.turn_on
     (KlikAanKlikUitDevice.turn_on self kwargs1 enum1).1 kwargs2 enum2).2 =
    [ KlikAanKlikUitThread DIM (KlikAanKlikUitDevice._id self)
        {| kw_tries := KlikAanKlikUitDevice.tries self;
           kw_sleep := KlikAanKlikUitDevice.sleep self;
           kw_callable_function :=
             BoundMethod (KlikAanKlikUitDevice._hub self) hub_dim;
           kw_rest :=
             <[ "level" := Py.ceil_truediv
                             (default 255 (kwargs2 !! ATTR_BRIGHTNESS)) 17 ]>
               {[ "entity" := KlikAanKlikUitDevice._id self ]} |} ]
  ∧ (KlikAanKlikUitDevice.turn_on
       (KlikAanKlikUitDevice.turn_off self kwargs1 enum1).1 kwargs2 enum2).2 =
      [ KlikAanKlikUitThread TURN_ON (KlikAanKlikUitDevice._id self)
          {| kw_tries := KlikAanKlikUitDevice.tries self;
             kw_sleep := KlikAanKlikUitDevice.sleep self;
             kw_callable_function :=
               BoundMethod (KlikAanKlikUitDevice._hub self) hub_turn_on;
             kw_rest := {[ "entity" := KlikAanKlikUitDevice._id self ]} |} ].
Proof.
  intros Hfree1 Hfree2. split.
  - rewrite (standard_turn_on_free self kwargs1 enum1) by done. cbn [fst].
    rewrite standard_turn_on_free by done. reflexivity.
  - unfold KlikAanKlikUitDevice.turn_off. rewrite Hfree1. cbn [fst].
    rewrite standard_turn_on_free by done. reflexivity.
Qed.

Lemma standard_turn_on_sequence_witness :
  (KlikAanKlikUitDevice.turn_on
     (KlikAanKlikUitDevice.turn_on Scenario.D1 {[ ATTR_BRIGHTNESS := 85 ]} []).1
     {[ ATTR_BRIGHTNESS := 85 ]} []).2 =
    [ KlikAanKlikUitThread DIM 7
        {| kw_tries := 3; kw_sleep := 3;
           kw_callable_function := BoundMethod 0%nat hub_dim;
           kw_rest := <[ "level" := 5 ]> {[ "entity" := 7 ]} |} ]
  ∧ (KlikAanKlikUitDevice.turn_on
       (KlikAanKlikUitDevice.turn_off Scenario.D1 {[ ATTR_BRIGHTNESS := 85 ]} []).1
       {[ ATTR_BRIGHTNESS := 85 ]} []).2 =
      [ KlikAanKlikUitThread TURN_ON 7
          {| kw_tries := 3; kw_sleep := 3;
             kw_callable_function := BoundMethod 0%nat hub_turn_on;
             kw_rest := {[ "entity" := 7 ]} |} ].
Proof.
  destruct (standard_turn_on_sequence Scenario.D1 {[ ATTR_BRIGHTNESS := 85 ]}
              {[ ATTR_BRIGHTNESS := 85 ]} [] []) as [Hdim Hon];
    [reflexivity | reflexivity |].
  split; [exact Hdim | exact Hon].
Defined.

(** ** Invariants of the running system *)

Lemma live_with_key_app (l1 l2 : list Thread) d a :
  live_with_key (l1 ++ l2) d a
  = (live_with_key l1 d a + live_with_key l2 d a)%nat.
Proof. unfold live_with_key. by rewrite filter_app, length_app. Qed.

Lemma live_with_key_none (l : list Thread) d a :
  (∀ t, t ∈ l → ¬ has_key t d a) → live_with_key l d a = 0%nat.
Proof.
  unfold live_with_key. induction l as [| t l IH]; intros Hnone; [done |].
  rewrite filter_cons_False by (apply Hnone; left).
  apply IH. intros t' Hin. apply Hnone. by right.
Qed.

Lemma live_with_key_delete (l : list Thread) k d a :
  (live_with_key (delete k l) d a ≤ live_with_key l d a)%nat.
Proof.
  unfold live_with_key. revert k.
  induction l as [| t l IH]; intros [| k]; try done.
  - change (delete 0%nat (t :: l)) with l.
    rewrite (filter_cons _ t). destruct (decide _); cbn [length]; lia.
  - change (delete (Datatypes.S k) (t :: l)) with (t :: delete k l).
    rewrite !(filter_cons _ t). specialize (IH k).
    destruct (decide _); cbn [length]; lia.
Qed.

Lemma new_thread_key A id kw d a :
  has_key (KlikAanKlikUitThread A id kw) d a → A = a ∧ id = d.
Proof. unfold has_key. cbn. by intros [-> ->]%thread_name_inj. Qed.

(** One call starts at most one thread per key. *)
Lemma dispatch_started_once e r (enum : list Thread) d a :
  (live_with_key (dispatch e r enum).2 d a ≤ 1)%nat.
Proof.
  unfold live_with_key.
  destruct (has_running_threads enum (entity_id e)) eqn:Hguard.
  { rewrite dispatch_busy by done. cbn. lia. }
  destruct e as [self | self], r as [kwargs |]; cbn [dispatch entity_id] in *.
  - rewrite standard_turn_on_free by done.
    destruct (KlikAanKlikUitDevice.off_or_unknown self); cbn [lift_standard snd fst];
      rewrite filter_cons; destruct (decide _); rewrite filter_nil; cbn [length]; lia.
  - unfold KlikAanKlikUitDevice.turn_off. rewrite Hguard. cbn [lift_standard snd fst].
    rewrite filter_cons; destruct (decide _); rewrite filter_nil; cbn [length]; lia.
  - rewrite zigbee_turn_on_free by done. unfold_methods.
    destruct (KlikAanKlikUitZigbeeDevice.off_or_unknown self),
      (kwargs !! ATTR_BRIGHTNESS), (kwargs !! ATTR_COLOR_TEMP);
      cbn [lift_zigbee snd fst from_option app];
      repeat (rewrite filter_cons; destruct (decide _));
      rewrite ?filter_nil; cbn [length]; try lia;
      repeat match goal with
        | Hk : has_key (KlikAanKlikUitThread _ _ _) _ _ |- _ =>
            apply new_thread_key in Hk as [? _]
        end; congruence.
  - unfold KlikAanKlikUitZigbeeDevice.turn_off. rewrite Hguard.
    cbn [lift_zigbee snd fst].
    rewrite filter_cons; destruct (decide _); rewrite filter_nil; cbn [length]; lia.
Qed.

Lemma guarded_of_key t d a :
  a ≠ CHANGE_TEMEPRATURE → has_key t d a → guarded t d.
Proof. unfold guarded. destruct a; tauto. Qed.

(** A call keeps the exclusion: it starts threads only when none of the
    guarded names of its device is live. *)
Lemma dispatch_exclusive e r (enum : list Thread) :
  exclusive enum → exclusive (enum ++ (dispatch e r enum).2).
Proof.
  intros Hex d a Ha. rewrite live_with_key_app.
  destruct (has_running_threads enum (entity_id e)) eqn:Hguard.
  { rewrite dispatch_busy by done. cbn. specialize (Hex d a Ha). lia. }
  destruct (decide (d = entity_id e)) as [-> | Hne].
  - rewrite (live_with_key_none enum).
    + pose proof (dispatch_started_once e r enum (entity_id e) a). lia.
    + intros t Hin Hk.
      apply (proj1 (has_running_threads_false enum (entity_id e)) Hguard t Hin).
      by eapply guarded_of_key.
  - rewrite (live_with_key_none (dispatch e r enum).2).
    + specialize (Hex d a Ha). lia.
    + intros t Hin Hk. destruct (dispatch_started_keys e r enum t Hin) as [a' Hk'].
      by destruct (has_key_unique _ _ _ _ _ Hk Hk') as [? _].
Qed.

Lemma fmap_thread_start (started : list Thread) :
  w_thread <$> (start <$> started) = started.
Proof. induction started as [| t l IH]; [done |]. cbn. by rewrite IH. Qed.

Section system_invariants.
Context {H : Type}.
Variable call : Callable → gmap string Z → H → Py.outcome unit * H.

Lemma enumerate_after_request (w : World H) n e' started :
  enumerate (after_request w n e' started) = enumerate w ++ started.
Proof.
  unfold enumerate, after_request. cbn. by rewrite fmap_app, fmap_thread_start.
Qed.

(** A worker step leaves the live threads as they were or removes one. *)
Lemma enumerate_after_worker_step (w w' : World H) :
  worker_step call w w' →
  enumerate w' = enumerate w ∨ ∃ k, enumerate w' = delete k (enumerate w).
Proof.
  inversion 1 as [? k wk i rest σ' Hk Hp Hatt | ? k | ? k]; subst; unfold enumerate; cbn.
  - left. rewrite list_fmap_insert. apply list_insert_id.
    by rewrite list_lookup_fmap, Hk.
  - right. exists k. apply list_fmap_delete.
  - right. exists k. apply list_fmap_delete.
Qed.

Lemma step_exclusive (w w' : World H) :
  step call w w' → exclusive (enumerate w) → exclusive (enumerate w').
Proof.
  intros [Hworker | Hrequest] Hex.
  - destruct (enumerate_after_worker_step w w' Hworker) as [-> | [k ->]]; [done |].
    intros d a Ha. pose proof (live_with_key_delete (enumerate w) k d a).
    specialize (Hex d a Ha). lia.
  - destruct Hrequest as [w n e r e' started Hn Hcall].
    rewrite enumerate_after_request.
    replace started with (dispatch e r (enumerate w)).2 by by rewrite Hcall.
    by apply dispatch_exclusive.
Qed.

Lemma step_identities (w w' : World H) :
  step call w w' →
  entity_identity <$> entities w' = entity_identity <$> entities w.
Proof.
  intros [Hworker | Hrequest].
  - by rewrite (worker_step_entities call w w' Hworker).
  - destruct Hrequest as [w n e r e' started Hn Hcall]. cbn.
    rewrite list_fmap_insert. apply list_insert_id.
    rewrite list_lookup_fmap, Hn. cbn. f_equal.
    replace e' with (dispatch e r (enumerate w)).1 by by rewrite Hcall.
    destruct e as [d | d], r as [kwargs |]; cbn; unfold_methods;
      by destruct (has_running_threads _ _).
Qed.

End system_invariants.

(** X13. With calls taken one at a time, the guard gives mutual exclusion
    on the names it checks.  Starting with no live thread, after any run of
    requests and worker steps no two live threads carry the same
    (device, on), (device, dim) or (device, off) key. *)
Theorem guard_gives_exclusion {H : Type}
    (call : Callable → gmap string Z → H → Py.outcome unit * H)
    (w w' : World H) :
  live w = [] →
  rtc (step call) w w' →
  ∀ device_id action,
    action ≠ CHANGE_TEMEPRATURE →
    (live_with_key (enumerate w') device_id action ≤ 1)%nat.
Proof.
  intros Hempty Hrun.
  assert (exclusive (enumerate w)) as Hex.
  { unfold enumerate. rewrite Hempty. intros d a _. cbn. lia. }
  clear Hempty. induction Hrun as [w | w1 w2 w3 Hstep _ IH]; [exact Hex |].
  apply IH. by eapply step_exclusive.
Qed.

Lemma guard_gives_exclusion_witness :
  (live_with_key
     (enumerate
        (after_request (mkWorld [Standard Scenario.D1] [] Scenario.idle) 0
           (Standard Scenario.D1_on) [Scenario.D1_turning_on]))
     7 TURN_ON ≤ 1)%nat.
Proof.
  apply (guard_gives_exclusion Scenario.reliable_hub
           (mkWorld [Standard Scenario.D1] [] Scenario.idle)
           (after_request (mkWorld [Standard Scenario.D1] [] Scenario.idle) 0
              (Standard Scenario.D1_on) [Scenario.D1_turning_on])).
  - reflexivity.
  - apply rtc_once. right.
    exact (request_dispatched
             (mkWorld [Standard Scenario.D1] [] Scenario.idle) 0
             (Standard Scenario.D1) (requestOn {[ ATTR_BRIGHTNESS := 85 ]})
             (Standard Scenario.D1_on) [Scenario.D1_turning_on] eq_refl eq_refl).
  - discriminate.
Defined.

(** X14. Nothing that happens after registration changes who an entity is.
    Across any run of requests and worker steps every entity keeps its
    class, name, id, hub and retry policy; only the cached state moves. *)
Theorem identities_are_fixed {H : Type}
    (call : Callable → gmap string Z → H → Py.outcome unit * H)
    (w w' : World H) :
  rtc (step call) w w' →
  entity_identity <$> entities w' = entity_identity <$> entities w.
Proof.
  induction 1 as [w | w1 w2 w3 Hstep _ IH]; [done |].
  rewrite IH. by apply (step_identities call).
Qed.

Lemma identities_are_fixed_witness :
  entity_identity <$>
    entities (after_request (mkWorld [Standard Scenario.D1] [] Scenario.idle) 0
                (Standard Scenario.D1_on) [Scenario.D1_turning_on])
  = entity_identity <$>
      entities (mkWorld [Standard Scenario.D1] [] Scenario.idle).
Proof.
  apply (identities_are_fixed Scenario.reliable_hub).
  apply rtc_once. right.
  exact (request_dispatched
           (mkWorld [Standard Scenario.D1] [] Scenario.idle) 0
           (Standard Scenario.D1) (requestOn {[ ATTR_BRIGHTNESS := 85 ]})
           (Standard Scenario.D1_on) [Scenario.D1_turning_on] eq_refl eq_refl).
Defined.

(** ** Brightness conversion, continued *)


(** X16. On the host scale the integer ceiling of the model is what Python
    computes: for every brightness from 0 to 255, dividing by 17 in binary64
    and applying [math.ceil] gives the level [dim_level] gives. *)
Theorem dim_level_matches_binary64 (hostBrightness : Z) :
  0 ≤ hostBrightness ≤ 255 →
  Py.math_ceil (PrimFloat.div (Py.float_of_int hostBrightness)
                  (Py.float_of_int 17))
  = Some (KlikAanKlikUitDevice.dim_level hostBrightness).
Proof. apply ceil_truediv_binary64. Qed.

Lemma dim_level_matches_binary64_witness :
  Py.math_ceil (PrimFloat.div (Py.float_of_int 86) (Py.float_of_int 17))
  = Some (KlikAanKlikUitDevice.dim_level 86).
Proof. apply (dim_level_matches_binary64 86). lia. Defined.

(** ** Registration *)

Lemma standard_entities_ids hub config :
  entity_id <$> standard_entities hub config =
    dev_id <$> filter (λ device, Sunshade ≠ dev_type device
                                 ∧ Zigbee_Lamp ≠ dev_type device) (devices hub).
Proof.
  unfold standard_entities. rewrite <- list_fmap_compose.
  by apply list_fmap_ext.
Qed.

Lemma zigbee_entities_ids hub :
  entity_id <$> zigbee_entities hub =
    dev_id <$> filter (λ device, Zigbee_Lamp = dev_type device) (devices hub).
Proof.
  unfold zigbee_entities. rewrite <- list_fmap_compose.
  by apply list_fmap_ext.
Qed.

(** The two generators split the devices that are not sunshades. *)
Lemma registered_devices_split (l : list HubDevice) :
  filter (λ device, Sunshade ≠ dev_type device ∧ Zigbee_Lamp ≠ dev_type device) l
  ++ filter (λ device, Zigbee_Lamp = dev_type device) l
  ≡ₚ filter (λ device, Sunshade ≠ dev_type device) l.
Proof.
  induction l as [| device l IH]; [done |].
  rewrite !(filter_cons _ device).
  repeat case_decide; destruct (dev_type device);
    try (exfalso; intuition congruence);
    rewrite <- ?app_comm_cons, <- ?Permutation_middle;
    first [ exact IH | by apply perm_skip ].
Qed.

Lemma added_ids hub config :
  connected hub = true →
  entity_id <$> added (setup_platform hub config)
  ≡ₚ dev_id <$> filter (λ device, Sunshade ≠ dev_type device) (devices hub).
Proof.
  intros Hc. unfold setup_platform. rewrite Hc. cbn [negb added].
  rewrite fmap_app, standard_entities_ids, zigbee_entities_ids, <- fmap_app.
  by rewrite registered_devices_split.
Qed.

Lemma length_filter_all {A} (P : A → Prop) `{∀ x, Decision (P x)} (l : list A) :
  length (filter P l) = length l ↔ Forall P l.
Proof.
  induction l as [| x l IH]; [by split; [constructor |] |].
  rewrite filter_cons. pose proof (length_filter P l) as Hle.
  destruct (decide (P x)) as [Hx | Hx]; cbn [length].
  - rewrite Forall_cons. split.
    + intros Hlen. split; [done |]. apply IH. lia.
    + intros [_ Hall]. apply IH in Hall. lia.
  - split; [lia |]. by intros [? _]%Forall_cons.
Qed.

(** X17. When the hub is not connected nothing is registered and the one
    error is logged.  When it is, every device that is not a sunshade gets
    exactly one entity and sunshades get none: the ids of the registered
    entities are, up to order, the ids of the devices that are not
    sunshades. *)
Theorem setup_registers_all_but_sunshades (hub : Hub) (config : gmap string Z) :
  if connected hub then
    entity_id <$> added (setup_platform hub config)
    ≡ₚ dev_id <$> filter (λ device, Sunshade ≠ dev_type device) (devices hub)
    ∧ logged_errors (setup_platform hub config) = []
  else
    added (setup_platform hub config) = []
    ∧ printed (setup_platform hub config) = []
    ∧ logged_errors (setup_platform hub config)
      = ["Could not connect to ICS2000 hub"].
Proof.
  destruct (connected hub) eqn:Hc.
  - split; [by apply added_ids |]. unfold setup_platform. by rewrite Hc.
  - unfold setup_platform. by rewrite Hc.
Qed.

(** X18. The first line printed reports the number of devices the hub
    lists, not the number registered.  The two agree exactly when the hub
    lists no sunshade; otherwise the report is too high. *)
Theorem setup_report_counts_sunshades (hub : Hub) (config : gmap string Z) :
  connected hub = true →
  printed (setup_platform hub config) !! 0%nat
    = Some ("Added " +:+ pretty (length (devices hub))
              +:+ " devices to Home Assistant")
  ∧ (length (added (setup_platform hub config)) ≤ length (devices hub))%nat
  ∧ (length (added (setup_platform hub config)) = length (devices hub)
     ↔ Forall (λ device, Sunshade ≠ dev_type device) (devices hub)).
Proof.
  intros Hc.
  assert (length (added (setup_platform hub config))
          = length (filter (λ device, Sunshade ≠ dev_type device) (devices hub)))
    as Hlen.
  { rewrite <- (length_fmap entity_id), (added_ids hub config Hc).
    by rewrite length_fmap. }
  rewrite Hlen. split; [| split].
  - unfold setup_platform. by rewrite Hc.
  - apply length_filter.
  - apply length_filter_all.
Qed.

Lemma setup_report_counts_sunshades_witness :
  printed (setup_platform Scenario.home ∅) !! 0%nat
    = Some ("Added " +:+ pretty (length (devices Scenario.home))
              +:+ " devices to Home Assistant")
  ∧ (length (added (setup_platform Scenario.home ∅))
     ≤ length (devices Scenario.home))%nat
  ∧ (length (added (setup_platform Scenario.home ∅))
     = length (devices Scenario.home)
     ↔ Forall (λ device, Sunshade ≠ dev_type device) (devices Scenario.home)).
Proof.
  apply (setup_report_counts_sunshades Scenario.home ∅).
  reflexivity.
Defined.

(** The home of the scenarios: four devices listed, three registered. *)
Example setup_home :
  added (setup_platform Scenario.home ∅) =
    [ Standard (KlikAanKlikUitDevice.init "switch" 5 0%nat 3 3);
      Standard Scenario.D1;
      Zigbee Scenario.Z1 ]
  ∧ printed (setup_platform Scenario.home ∅) =
      [ "Added 4 devices to Home Assistant";
        "Added 1 Zigbee devices to Home Assistant" ].
Proof. split; reflexivity. Qed.

Lemma added_entity_cases hub config e :
  e ∈ added (setup_platform hub config) →
  (∃ device, device ∈ devices hub ∧
     e = Standard (KlikAanKlikUitDevice.init (dev_name device) (dev_id device)
                     (dev_hub device) (default 3 (config !! "tries"))
                     (default 3 (config !! "sleep"))))
  ∨ (∃ device, device ∈ devices hub ∧
       e = Zigbee (KlikAanKlikUitZigbeeDevice.init (dev_name device)
                     (dev_id device) (dev_hub device))).
Proof.
  unfold setup_platform. destruct (connected hub); cbn [negb added].
  - unfold standard_entities, zigbee_entities.
    intros [Hin | Hin]%elem_of_app;
      apply list_elem_of_fmap in Hin as (device & -> & Hdev);
      apply list_elem_of_filter in Hdev as [_ Hdev]; [left | right]; eauto.
  - intros Hin. by apply elem_of_nil in Hin.
Qed.

(** X19. Every registered entity starts with nothing cached: state,
    brightness and color temperature are all unknown.  So whatever the
    lamp is really doing, the first [turn_on] the guard lets through sends
    the on-command first. *)
Theorem registered_entities_start_unknown
    (hub : Hub) (config : gmap string Z) (e : Entity) :
  e ∈ added (setup_platform hub config) →
  cached_is_on e = None
  ∧ cached_brightness e = None
  ∧ cached_color_temp e = None
  ∧ ∀ kwargs enum,
      has_running_threads enum (entity_id e) = false →
      ∃ t rest, (dispatch e (requestOn kwargs) enum).2 = t :: rest
                ∧ has_key t (entity_id e) TURN_ON.
Proof.
  intros [(device & _ & ->) | (device & _ & ->)]%added_entity_cases;
    do 3 (split; [reflexivity |]);
    intros kwargs enum Hfree; cbn [dispatch entity_id] in *.
  - rewrite standard_turn_on_free by done. cbn. eexists _, _.
    split; [reflexivity | by apply key_of_new_thread].
  - rewrite zigbee_turn_on_free by done. cbn. eexists _, _.
    split; [reflexivity | by apply key_of_new_thread].
Qed.

Lemma registered_entities_start_unknown_witness :
  cached_is_on (Zigbee Scenario.Z1) = None
  ∧ cached_brightness (Zigbee Scenario.Z1) = None
  ∧ cached_color_temp (Zigbee Scenario.Z1) = None
  ∧ ∀ kwargs enum,
      has_running_threads enum (entity_id (Zigbee Scenario.Z1)) = false →
      ∃ t rest, (dispatch (Zigbee Scenario.Z1) (requestOn kwargs) enum).2 = t :: rest
                ∧ has_key t (entity_id (Zigbee Scenario.Z1)) TURN_ON.
Proof.
  apply (registered_entities_start_unknown Scenario.home ∅ (Zigbee Scenario.Z1)).
  apply list_elem_of_further, list_elem_of_further, list_elem_of_here.
Defined.



Lemma NoDup_fmap_filter {A B} (f : A → B) (P : A → Prop)
    `{∀ x, Decision (P x)} (l : list A) :
  NoDup (f <$> l) → NoDup (f <$> filter P l).
Proof.
  induction l as [| x l IH]; [done |].
  rewrite fmap_cons, NoDup_cons. intros [Hx Hl].
  rewrite filter_cons. destruct (decide (P x)); [| by apply IH].
  rewrite fmap_cons, NoDup_cons. split; [| by apply IH].
  intros (y & Hy & Hin)%list_elem_of_fmap.
  apply list_elem_of_filter in Hin as [_ Hin].
  apply Hx, list_elem_of_fmap. eauto.
Qed.

(** X21. Registration keeps ids apart.  If the hub lists no id twice, no
    two registered entities share an id, so no two of them share a thread
    name or a guard. *)
Theorem setup_keeps_ids_distinct (hub : Hub) (config : gmap string Z) :
  NoDup (dev_id <$> devices hub) →
  NoDup (entity_id <$> added (setup_platform hub config)).
Proof.
  intros Hnodup. destruct (connected hub) eqn:Hc.
  - rewrite (added_ids hub config Hc). by apply NoDup_fmap_filter.
  - unfold setup_platform. rewrite Hc. cbn. constructor.
Qed.

Lemma setup_keeps_ids_distinct_witness :
  NoDup (entity_id <$> added (setup_platform Scenario.home ∅)).
Proof.
  apply (setup_keeps_ids_distinct Scenario.home ∅).
  apply (bool_decide_unpack _). reflexivity.
Defined.
